(** * Deployment registrar ([contracts/script/post_deploy.py])

    A shallow embedding of the post-deployment registration script: the
    [DeploymentRegistrar] class ([fetch_config], [load_broadcast_json],
    [extract_deployments], [register_contracts]) and the [main] driver.

    Python values that come out of [json.load] / [resp.json()] are modelled
    by the type [json]; Python's [None] and JSON's [null] are the same value
    and are both [JNull].  Numbers are integers ([Z]); floating point numbers
    are outside the model.  Every effect of the script (console output, HTTP
    requests, file-system probes) is recorded as an [event], and the outside
    world (HTTP service, file system) is a record of oracles. *)

From Stdlib Require Import ZArith List String Ascii Bool Lia DecimalString.
Import ListNotations.
Open Scope string_scope.
Open Scope Z_scope.

(** ** Python values *)

#[local] Set Warnings "-register-all".

Inductive json : Type :=
| JNull
| JBool (b : bool)
| JInt (z : Z)
| JStr (s : string)
| JArr (items : list json)
| JObj (fields : list (string * json)).

(** An exception of the [requests] library, described by the classes of
    [requests.exceptions] it is an instance of (a [ConnectTimeout] is both a
    [ConnectionError] and a [Timeout]). *)
Record request_error := {
  is_connection_error : bool;
  is_timeout : bool;
  err_text : string         (* [str(e)] *)
}.

(** Exceptions the script raises, catches or lets propagate. *)
Inductive exn : Type :=
| RuntimeError (msg : string)
| FileNotFoundError (msg : string)
| KeyError (key : string)
| TypeError
| AttributeError
| JSONDecodeError
| RequestError (e : request_error)   (* any [requests.exceptions.RequestException] *)
| SystemExit (code : Z).

Inductive result (A : Type) : Type :=
| Ok (a : A)
| Raise (e : exn).
Arguments Ok {A} a.
Arguments Raise {A} e.

(** A dict built by the script itself (a payload, the headers): insertion
    ordered, string keys. *)
Definition dict (V : Type) := list (string * V).

Fixpoint dict_lookup {V} (d : dict V) (k : string) : option V :=
  match d with
  | [] => None
  | (k', v) :: d' => if String.eqb k' k then Some v else dict_lookup d' k
  end.

Definition dict_has {V} (d : dict V) (k : string) : bool :=
  match dict_lookup d k with Some _ => true | None => false end.

(** [d[k] = v] on a dict: overwrite in place or append. *)
Fixpoint dict_store {V} (d : dict V) (k : string) (v : V) : dict V :=
  match d with
  | [] => [(k, v)]
  | (k', v') :: d' =>
      if String.eqb k' k then (k', v) :: d' else (k', v') :: dict_store d' k v
  end.

(** [bool(x)]. *)
Definition truthy (v : json) : bool :=
  match v with
  | JNull => false
  | JBool b => b
  | JInt z => negb (z =? 0)
  | JStr s => negb (String.eqb s "")
  | JArr l => match l with [] => false | _ => true end
  | JObj f => match f with [] => false | _ => true end
  end.

(** [x == "literal"]. *)
Definition eq_str (v : json) (s : string) : bool :=
  match v with
  | JStr s' => String.eqb s' s
  | _ => false
  end.

(** [x[key]] with a string key. *)
Definition getitem (v : json) (key : string) : result json :=
  match v with
  | JObj f => match dict_lookup f key with
              | Some x => Ok x
              | None => Raise (KeyError key)
              end
  | _ => Raise TypeError
  end.

(** [x.get(key, default)]; only dicts have the method. *)
Definition get_default (v : json) (key : string) (default : json) : result json :=
  match v with
  | JObj f => match dict_lookup f key with
              | Some x => Ok x
              | None => Ok default
              end
  | _ => Raise AttributeError
  end.

(** [x.get(key)]. *)
Definition get (v : json) (key : string) : result json :=
  get_default v key JNull.

Fixpoint chars (s : string) : list json :=
  match s with
  | EmptyString => []
  | String c s' => JStr (String c EmptyString) :: chars s'
  end.

(** [for x in v]: the elements of a list, the keys of a dict, the
    characters of a string. *)
Definition iterate (v : json) : result (list json) :=
  match v with
  | JArr l => Ok l
  | JObj f => Ok (map (fun kv => JStr (fst kv)) f)
  | JStr s => Ok (chars s)
  | _ => Raise TypeError
  end.

(** [len(v)]. *)
Definition len (v : json) : result Z :=
  match v with
  | JArr l => Ok (Z.of_nat (List.length l))
  | JObj f => Ok (Z.of_nat (List.length f))
  | JStr s => Ok (Z.of_nat (String.length s))
  | _ => Raise TypeError
  end.

(** Values usable as dict keys. *)
Definition hashable (v : json) : bool :=
  match v with
  | JArr _ | JObj _ => false
  | _ => true
  end.

(** Equality of dict keys: [True == 1] and [False == 0]. *)
Definition key_eqb (a b : json) : bool :=
  match a, b with
  | JNull, JNull => true
  | JBool x, JBool y => Bool.eqb x y
  | JInt x, JInt y => x =? y
  | JBool x, JInt y | JInt y, JBool x => (if x then 1 else 0) =? y
  | JStr x, JStr y => String.eqb x y
  | _, _ => false
  end.

(** A dict keyed by arbitrary hashable values ([solidity_to_mapping]). *)
Definition vdict := list (json * json).

Fixpoint vdict_find (d : vdict) (k : json) : option json :=
  match d with
  | [] => None
  | (k', v) :: d' => if key_eqb k' k then Some v else vdict_find d' k
  end.

Fixpoint vdict_store (d : vdict) (k v : json) : vdict :=
  match d with
  | [] => [(k, v)]
  | (k', v') :: d' =>
      if key_eqb k' k then (k', v) :: d' else (k', v') :: vdict_store d' k v
  end.

(** ** Effects *)

Definition headers := dict string.
Definition payload := dict json.

Inductive event : Type :=
| EPrint (line : string)
| EGet (url : string) (h : headers)
| EPost (url : string) (body : payload) (h : headers)
| EExists (file : string)
| EOpen (file : string).

(** Path expressions of [pathlib], as the script writes them. *)
Inductive path : Type :=
| ScriptDir
| Parent (p : path)
| Div (p : path) (component : string).

(** What [requests.get] / [requests.post] can do. *)
Record response := {
  ok : bool;
  status_code : Z;
  text : string;
  body_json : option json   (* [None]: [resp.json()] raises *)
}.

Inductive http_outcome : Type :=
| Responds (r : response)
| Fails (e : request_error).

Record world := {
  http_get : string -> headers -> http_outcome;
  (** the outcome of the [n]-th POST of the run *)
  http_post : nat -> string -> payload -> headers -> http_outcome;
  resolve : path -> string;               (* [str(p.resolve())] *)
  file_exists : string -> bool;
  load_file : string -> result json       (* [open] + [json.load] *)
}.

(** The registrar object. *)
Record DeploymentRegistrar := {
  api_url : string;
  req_headers : headers;
  config : json
}.

Record state := {
  self : DeploymentRegistrar;
  posts : nat                 (* POST requests issued so far *)
}.

Definition M (A : Type) : Type := state -> list event * state * result A.

Definition ret {A} (a : A) : M A := fun s => ([], s, Ok a).

Definition raise {A} (e : exn) : M A := fun s => ([], s, Raise e).

Definition bind {A B} (m : M A) (k : A -> M B) : M B :=
  fun s =>
    match m s with
    | (t, s', Ok a) => let '(t', s'', r) := k a s' in ((t ++ t')%list, s'', r)
    | (t, s', Raise e) => (t, s', Raise e)
    end.

Notation "x <- m ;; k" := (bind m (fun x => k))
  (at level 61, m at next level, right associativity).
Notation "m ;;; k" := (bind m (fun _ => k))
  (at level 61, right associativity).

Definition lift {A} (r : result A) : M A := fun s => ([], s, r).

Definition emit (e : event) : M unit := fun s => ([e], s, Ok tt).

Definition print (line : string) : M unit := emit (EPrint line).

Definition get_self : M DeploymentRegistrar := fun s => ([], s, Ok (self s)).

Definition set_config (c : json) : M unit :=
  fun s =>
    ([], {| self := {| api_url := api_url (self s);
                       req_headers := req_headers (self s);
                       config := c |};
            posts := posts s |}, Ok tt).

(** [try: m except <handler>]: [handler] picks the exceptions it catches. *)
Definition try_catch {A} (m : M A) (handler : exn -> option (M A)) : M A :=
  fun s =>
    match m s with
    | (t, s', Raise e) =>
        match handler e with
        | Some h => let '(t', s'', r) := h s' in ((t ++ t')%list, s'', r)
        | None => (t, s', Raise e)
        end
    | r => r
    end.

(** [for x in xs: body x]. *)
Fixpoint for_each {A} (xs : list A) (body : A -> M unit) : M unit :=
  match xs with
  | [] => ret tt
  | x :: xs' => body x ;;; for_each xs' body
  end.

(** ** The script *)

Definition nl : string := String (ascii_of_nat 10) EmptyString.

Fixpoint repeat_str (s : string) (n : nat) : string :=
  match n with
  | O => ""
  | S n' => s ++ repeat_str s n'
  end.

(** [sep.join(xs)]. *)
Fixpoint join (sep : string) (xs : list string) : string :=
  match xs with
  | [] => ""
  | [x] => x
  | x :: xs' => x ++ sep ++ join sep xs'
  end.

(** [s.rstrip('/')]. *)
Fixpoint rstrip_slash (s : string) : string :=
  match s with
  | EmptyString => EmptyString
  | String c s' =>
      match rstrip_slash s' with
      | EmptyString => if Ascii.eqb c "/" then EmptyString else String c EmptyString
      | r => String c r
      end
  end.

(** The entries [extract_deployments] appends to its result. *)
Record Deployment := {
  solidity_name : json;
  db_name : json;
  mapping_id : json;
  address : json;
  tx_hash : json
}.

Record Args := {
  arg_chain_id : Z;               (* [--chain-id], default 31337 *)
  arg_api_url : string;           (* [--api-url] *)
  arg_api_key : option string;    (* [--api-key], [None] when not given *)
  arg_script : string;            (* [--script] *)
  arg_dry_run : bool              (* [--dry-run] *)
}.

(** [DeploymentRegistrar.__init__]. *)
Definition init (url : string) (api_key : option string) : DeploymentRegistrar :=
  {| api_url := rstrip_slash url;
     req_headers :=
       match api_key with
       | Some k => if negb (String.eqb k "")
                   then [("Content-Type", "application/json"); ("X-API-Key", k)]
                   else [("Content-Type", "application/json")]
       | None => [("Content-Type", "application/json")]
       end;
     config := JNull |}.

(** The state a run starts in: [registrar = DeploymentRegistrar(args.api_url,
    args.api_key)], no request posted yet. *)
Definition start (args : Args) : state :=
  {| self := init (arg_api_url args) (arg_api_key args); posts := 0 |}.

Section Script.

(** [str(v)], as used by the f-strings of the script. *)
Variable str_of : json -> string.

Variable w : world.

Definition answer (o : http_outcome) : M response :=
  match o with
  | Responds r => ret r
  | Fails e => raise (RequestError e)
  end.

Definition requests_get (url : string) (h : headers) : M response :=
  emit (EGet url h) ;;; answer (http_get w url h).

Definition requests_post (url : string) (body : payload) (h : headers) : M response :=
  fun s =>
    (emit (EPost url body h) ;;; answer (http_post w (posts s) url body h))
      {| self := self s; posts := S (posts s) |}.

Definition fetch_config (chain_id : Z) : M json :=
  me <- get_self ;;
  let url := api_url me ++ "/api/v1/contracts/config/" ++ str_of (JInt chain_id) in
  resp <- try_catch (requests_get url (req_headers me))
            (fun e =>
               match e with
               | RequestError r =>
                   if is_connection_error r then
                     Some (raise (RuntimeError
                       ("Cannot connect to API at " ++ api_url me
                          ++ ". Is the backend running?")))
                   else if is_timeout r then
                     Some (raise (RuntimeError ("API request timed out: " ++ url)))
                   else None
               | _ => None
               end) ;;
  if negb (ok resp) then
    raise (RuntimeError ("Failed to fetch config: "
                           ++ str_of (JInt (status_code resp)) ++ " - " ++ text resp))
  else
    data <- lift (match body_json resp with
                  | Some d => Ok d
                  | None => Raise JSONDecodeError
                  end) ;;
    success <- lift (get data "success") ;;
    if negb (truthy success) then
      err <- lift (get data "error") ;;
      raise (RuntimeError ("API error: " ++ str_of err))
    else
      d <- lift (getitem data "data") ;;
      set_config d ;;;
      me' <- get_self ;;
      ret (config me').

Definition possible_paths (chain_id : Z) (script_name : string) : list path :=
  [ Div (Div (Div (Div (Parent ScriptDir) "broadcast") script_name)
           (str_of (JInt chain_id))) "run-latest.json";
    Div (Div (Div (Div (Div ScriptDir "..") "broadcast") script_name)
           (str_of (JInt chain_id))) "run-latest.json" ].

(** The search loop: the first candidate whose resolved path exists. *)
Fixpoint find_broadcast (paths : list path) : M (option string) :=
  match paths with
  | [] => ret None
  | p :: rest =>
      let resolved := resolve w p in
      emit (EExists resolved) ;;;
      if file_exists w resolved then ret (Some resolved)
      else find_broadcast rest
  end.

Definition load_broadcast_json (chain_id : Z) (script_name : string) : M json :=
  let paths := possible_paths chain_id script_name in
  broadcast_path <- find_broadcast paths ;;
  match broadcast_path with
  | None =>
      let searched := join ", " (map (resolve w) paths) in
      raise (FileNotFoundError
               ("Broadcast file not found. Searched:" ++ nl ++ searched ++ nl ++ nl
                  ++ "Make sure you've run: forge script script/" ++ script_name
                  ++ " --broadcast"))
  | Some file =>
      print ("Loading broadcast from: " ++ file) ;;;
      emit (EOpen file) ;;;
      lift (load_file w file)
  end.

(** The dict comprehension [{m["solidity_name"]: m for m in mappings}]. *)
Fixpoint build_solidity_to_mapping (ms : list json) (d : vdict) : result vdict :=
  match ms with
  | [] => Ok d
  | m :: rest =>
      match getitem m "solidity_name" with
      | Ok k => if hashable k
                then build_solidity_to_mapping rest (vdict_store d k m)
                else Raise TypeError
      | Raise e => Raise e
      end
  end.

(** [k in d]: hashes [k] first. *)
Definition contains (d : vdict) (k : json) : result bool :=
  if hashable k
  then Ok (match vdict_find d k with Some _ => true | None => false end)
  else Raise TypeError.

(** [d[k]], for a [k] already known to be in [d]. *)
Definition vdict_get (d : vdict) (k : json) : result json :=
  match vdict_find d k with
  | Some v => Ok v
  | None => Raise (KeyError (str_of k))
  end.

(** The body of the loop over the transactions; [deployments] is the list
    being appended to. *)
Fixpoint extract_loop (solidity_to_mapping : vdict) (txs : list json)
    (deployments : list Deployment) : M (list Deployment) :=
  match txs with
  | [] => ret deployments
  | tx :: rest =>
      ty <- lift (get tx "transactionType") ;;
      if eq_str ty "CREATE" then
        name <- lift (get tx "contractName") ;;
        known <- lift (contains solidity_to_mapping name) ;;
        if (known : bool) then
          mapping <- lift (vdict_get solidity_to_mapping name) ;;
          db <- lift (getitem mapping "db_name") ;;
          id <- lift (getitem mapping "id") ;;
          addr <- lift (get tx "contractAddress") ;;
          h <- lift (get tx "hash") ;;
          extract_loop solidity_to_mapping rest
            (deployments ++ [ {| solidity_name := name; db_name := db;
                                 mapping_id := id; address := addr;
                                 tx_hash := h |} ])%list
        else
          print ("  Skipping " ++ str_of name ++ ": not in contract_mappings table") ;;;
          extract_loop solidity_to_mapping rest deployments
      else
        extract_loop solidity_to_mapping rest deployments
  end.

Definition extract_deployments (broadcast : json) : M (list Deployment) :=
  me <- get_self ;;
  match config me with
  | JNull => raise (RuntimeError "Config not loaded. Call fetch_config() first.")
  | cfg =>
      ms <- lift (getitem cfg "mappings") ;;
      items <- lift (iterate ms) ;;
      solidity_to_mapping <- lift (build_solidity_to_mapping items []) ;;
      transactions <- lift (get_default broadcast "transactions" (JArr [])) ;;
      txs <- lift (iterate transactions) ;;
      extract_loop solidity_to_mapping txs []
  end.

(** The payload [register_contracts] builds for one deployment. *)
Definition build_payload (chain_id : Z) (default_deployer : json) (dep : Deployment)
  : payload :=
  let payload := [ ("chain_id", JInt chain_id);
                   ("contract_mapping_id", mapping_id dep);
                   ("address", address dep);
                   ("deployment_tx_hash", tx_hash dep) ] in
  if truthy default_deployer
  then dict_store payload "deployed_by" default_deployer
  else payload.

(** One iteration of the submission loop, on the counters so far. *)
Definition register_one (chain_id : Z) (default_deployer : json)
    (counts : Z * Z) (dep : Deployment) : M (Z * Z) :=
  let '(success_count, failure_count) := counts in
  me <- get_self ;;
  let payload := build_payload chain_id default_deployer dep in
  try_catch
    (resp <- requests_post (api_url me ++ "/api/v1/contracts") payload (req_headers me) ;;
     if ok resp then
       print ("  Registered " ++ str_of (db_name dep) ++ ": " ++ str_of (address dep)) ;;;
       ret (success_count + 1, failure_count)
     else
       print ("  Failed " ++ str_of (db_name dep) ++ ": "
                ++ str_of (JInt (status_code resp)) ++ " - " ++ text resp) ;;;
       ret (success_count, failure_count + 1))
    (fun e =>
       match e with
       | RequestError r =>
           Some (print ("  Failed " ++ str_of (db_name dep) ++ ": " ++ err_text r) ;;;
                 ret (success_count, failure_count + 1))
       | _ => None
       end).

Fixpoint register_loop (chain_id : Z) (default_deployer : json)
    (deployments : list Deployment) (counts : Z * Z) : M (Z * Z) :=
  match deployments with
  | [] => ret counts
  | dep :: rest =>
      counts' <- register_one chain_id default_deployer counts dep ;;
      register_loop chain_id default_deployer rest counts'
  end.

Definition register_contracts (chain_id : Z) (deployments : list Deployment)
  : M (Z * Z) :=
  me <- get_self ;;
  match config me with
  | JNull => raise (RuntimeError "Config not loaded. Call fetch_config() first.")
  | cfg =>
      network <- lift (getitem cfg "network") ;;
      default_deployer <- lift (get network "default_deployer") ;;
      register_loop chain_id default_deployer deployments (0, 0)
  end.

(** [main], after [argparse] has produced [args], in two parts: the steps
    numbered 1 to 3 in its comments (fetch the configuration, require the
    API key, load the record and extract the deployments, which are listed on
    the console), and step 4 (register the contracts). *)
Definition main_prepare (args : Args) : M (list Deployment) :=
  print (repeat_str "=" 60) ;;;
  print "Nexus Protocol - Post-Deployment Contract Registration" ;;;
  print (repeat_str "=" 60) ;;;
  print (nl ++ "[1/4] Fetching config for chain "
            ++ str_of (JInt (arg_chain_id args)) ++ "...") ;;;
  cfg <- try_catch (fetch_config (arg_chain_id args))
           (fun e =>
              match e with
              | RuntimeError msg =>
                  Some (print ("ERROR: " ++ msg) ;;; raise (SystemExit 1))
              | _ => None
              end) ;;
  network <- lift (getitem cfg "network") ;;
  network_name <- lift (getitem network "network_name") ;;
  network' <- lift (getitem cfg "network") ;;
  display_name <- lift (getitem network' "display_name") ;;
  network'' <- lift (getitem cfg "network") ;;
  deployer <- lift (get_default network'' "default_deployer" (JStr "not configured")) ;;
  mappings <- lift (getitem cfg "mappings") ;;
  mapping_count <- lift (len mappings) ;;
  print ("   Network: " ++ str_of display_name ++ " (" ++ str_of network_name ++ ")") ;;;
  print ("   Default deployer: " ++ str_of deployer) ;;;
  print ("   Contract mappings: " ++ str_of (JInt mapping_count)) ;;;
  if negb (eq_str network_name "localhost")
     && negb (match arg_api_key args with
              | Some k => negb (String.eqb k "")
              | None => false
              end)
  then
    print (nl ++ "ERROR: API key required for non-localhost deployments") ;;;
    print "       Use --api-key flag to provide authentication" ;;;
    raise (SystemExit 1)
  else
    print (nl ++ "[2/4] Loading broadcast from " ++ arg_script args ++ "...") ;;;
    broadcast <- try_catch (load_broadcast_json (arg_chain_id args) (arg_script args))
                   (fun e =>
                      match e with
                      | FileNotFoundError msg =>
                          Some (print ("ERROR: " ++ msg) ;;; raise (SystemExit 1))
                      | _ => None
                      end) ;;
    print (nl ++ "[3/4] Extracting deployments...") ;;;
    deployments <- extract_deployments broadcast ;;
    print ("   Found " ++ str_of (JInt (Z.of_nat (List.length deployments)))
             ++ " contracts to register:") ;;;
    for_each deployments
      (fun dep => print ("     - " ++ str_of (db_name dep) ++ " ("
                           ++ str_of (solidity_name dep) ++ "): "
                           ++ str_of (address dep))) ;;;
    ret deployments.

Definition main_register (args : Args) (deployments : list Deployment) : M unit :=
  match deployments with
  | [] => print (nl ++ "[4/4] No contracts to register.")
  | _ =>
      if arg_dry_run args then
        print (nl ++ "[4/4] DRY RUN - Skipping registration") ;;;
        print "     Would register:" ;;;
        for_each deployments
          (fun dep => print ("       " ++ str_of (db_name dep) ++ ": "
                               ++ str_of (address dep)))
      else
        print (nl ++ "[4/4] Registering contracts...") ;;;
        counts <- register_contracts (arg_chain_id args) deployments ;;
        let '(success, failures) := counts in
        print (nl ++ repeat_str "=" 60) ;;;
        if failures =? 0 then
          print ("SUCCESS: Registered " ++ str_of (JInt success) ++ " contracts") ;;;
          print (nl ++ "Contracts are now accessible via:") ;;;
          print ("  GET " ++ arg_api_url args ++ "/api/v1/contracts/"
                   ++ str_of (JInt (arg_chain_id args))) ;;;
          print (repeat_str "=" 60)
        else
          print ("PARTIAL: Registered " ++ str_of (JInt success) ++ " contracts, "
                   ++ str_of (JInt failures) ++ " failed") ;;;
          raise (SystemExit 1)
  end.

Definition main (args : Args) : M unit :=
  deployments <- main_prepare args ;;
  main_register args deployments.

(** A whole run of the script: the events it produces and how it ends. *)
Definition run (args : Args) : list event * result unit :=
  let '(t, _, r) := main args (start args) in
  (t, r).

End Script.

(** The status the process exits with: [0] on return, the argument of
    [sys.exit], and [1] when an exception reaches the top level. *)
Definition exit_code (r : result unit) : Z :=
  match r with
  | Ok _ => 0
  | Raise (SystemExit c) => c
  | Raise _ => 1
  end.

(** ** Reading the events of a run *)

Definition is_file_event (e : event) : bool :=
  match e with
  | EExists _ | EOpen _ => true
  | _ => false
  end.

(** The bodies of the POST requests of a trace, in order. *)
Fixpoint posted (t : list event) : list payload :=
  match t with
  | [] => []
  | EPost _ body _ :: t' => body :: posted t'
  | _ :: t' => posted t'
  end.

(** The console output of a trace, in order. *)
Fixpoint printed (t : list event) : list string :=
  match t with
  | [] => []
  | EPrint line :: t' => line :: printed t'
  | _ :: t' => printed t'
  end.

Fixpoint starts_with (p s : string) : bool :=
  match p, s with
  | EmptyString, _ => true
  | String a p', String b s' => Ascii.eqb a b && starts_with p' s'
  | String _ _, EmptyString => false
  end.

(** [sub] occurs somewhere in [s]. *)
Definition occurs_in (sub s : string) : Prop :=
  exists before after, s = before ++ sub ++ after.

(** The failure modes of the configuration service. *)
Inductive failure_mode : Type :=
| Unreachable
| TimedOut
| BadStatus
| ApplicationError.

(** How the answer of the configuration service falls into the modes. *)
Definition failure_of (o : http_outcome) : option failure_mode :=
  match o with
  | Fails e =>
      if is_connection_error e then Some Unreachable
      else if is_timeout e then Some TimedOut
      else None
  | Responds r =>
      if negb (ok r) then Some BadStatus
      else match body_json r with
           | Some (JObj f) =>
               match dict_lookup f "success" with
               | Some v => if truthy v then None else Some ApplicationError
               | None => Some ApplicationError
               end
           | _ => None
           end
  end.

(** What a caller holding the [RuntimeError] can tell from its message. *)
Definition classify_error (msg : string) : option failure_mode :=
  if starts_with "Cannot connect to API at " msg then Some Unreachable
  else if starts_with "API request timed out: " msg then Some TimedOut
  else if starts_with "Failed to fetch config: " msg then Some BadStatus
  else if starts_with "API error: " msg then Some ApplicationError
  else None.

(** The candidates probed by the search loop: up to and including the first
    one that exists. *)
Fixpoint probed (w : world) (paths : list path) : list path :=
  match paths with
  | [] => []
  | p :: rest =>
      if file_exists w (resolve w p) then [p] else p :: probed w rest
  end.

Definition probe (w : world) (p : path) : event := EExists (resolve w p).

Definition candidate_exists (w : world) (p : path) : bool :=
  file_exists w (resolve w p).

(** ** Cross-referencing, as a join *)

Definition is_ok {A} (r : result A) : bool :=
  match r with Ok _ => true | Raise _ => false end.

(** [v.get(key)] and [v[key]] on a dict that has what is asked of it. *)
Definition field (v : json) (key : string) : json :=
  match get v key with Ok x => x | Raise _ => JNull end.

Definition item (v : json) (key : string) : json :=
  match getitem v key with Ok x => x | Raise _ => JNull end.

(** The mappings [config["mappings"]] iterates over, and the transactions
    [broadcast.get("transactions", [])] iterates over. *)
Definition mappings_of (cfg : json) : result (list json) :=
  match getitem cfg "mappings" with
  | Ok ms => iterate ms
  | Raise e => Raise e
  end.

Definition transactions_of (broadcast : json) : result (list json) :=
  match get_default broadcast "transactions" (JArr []) with
  | Ok tv => iterate tv
  | Raise e => Raise e
  end.

(** A mapping is a dict with a hashable [solidity_name], a [db_name] and an
    [id]; a transaction is a dict whose [contractName], when it is a CREATE,
    is hashable. *)
Definition well_formed_mapping (m : json) : bool :=
  match getitem m "solidity_name" with
  | Ok k => hashable k
  | Raise _ => false
  end && is_ok (getitem m "db_name") && is_ok (getitem m "id").

Definition is_create (tx : json) : bool :=
  eq_str (field tx "transactionType") "CREATE".

Definition well_formed_tx (tx : json) : bool :=
  match tx with
  | JObj _ => negb (is_create tx) || hashable (field tx "contractName")
  | _ => false
  end.

(** [m] is a mapping whose [solidity_name] is [name]. *)
Definition names (name m : json) : bool :=
  match getitem m "solidity_name" with
  | Ok k => key_eqb k name
  | Raise _ => false
  end.

(** The mapping a name is joined with: when several mappings carry the
    name, the one listed last. *)
Definition mapping_for (mappings : list json) (name : json) : option json :=
  find (names name) (rev mappings).

Definition deployment_of (tx m : json) : Deployment :=
  {| solidity_name := field tx "contractName";
     db_name := item m "db_name";
     mapping_id := item m "id";
     address := field tx "contractAddress";
     tx_hash := field tx "hash" |}.

(** What one transaction contributes to the result, and to the console. *)
Definition deployment_for (mappings : list json) (tx : json) : list Deployment :=
  if is_create tx then
    match mapping_for mappings (field tx "contractName") with
    | Some m => [deployment_of tx m]
    | None => []
    end
  else [].

Definition skip_line (str_of : json -> string) (tx : json) : string :=
  "  Skipping " ++ str_of (field tx "contractName")
    ++ ": not in contract_mappings table".

Definition report_for (str_of : json -> string) (mappings : list json) (tx : json)
  : list event :=
  if is_create tx then
    match mapping_for mappings (field tx "contractName") with
    | Some _ => []
    | None => [EPrint (skip_line str_of tx)]
    end
  else [].

(** ** A local deployment, for the examples

    The scenario of the script's defaults: chain 31337, a [Staking] contract
    known to the database as [nexusStaking], and a deployment record with
    further transactions. *)

(** [str(v)] on the scalar values; the [repr] of lists and dicts is not
    needed by the examples and is abbreviated. *)
Definition str_scalar (v : json) : string :=
  match v with
  | JNull => "None"
  | JBool true => "True"
  | JBool false => "False"
  | JInt z => NilZero.string_of_int (Z.to_int z)
  | JStr s => s
  | JArr _ => "[...]"
  | JObj _ => "{...}"
  end.

Definition staking_mapping : json :=
  JObj [("id", JInt 1); ("solidity_name", JStr "Staking");
        ("db_name", JStr "nexusStaking")].

Definition token_mapping : json :=
  JObj [("id", JInt 2); ("solidity_name", JStr "Token");
        ("db_name", JStr "nexusToken")].

Definition governor_mapping : json :=
  JObj [("id", JInt 3); ("solidity_name", JStr "Governor");
        ("db_name", JStr "nexusGovernor")].

Definition network_config (name : string) (deployer : list (string * json)) : json :=
  JObj (("network_name", JStr name) :: ("display_name", JStr "Anvil") :: deployer).

Definition config_with (network : json) (mappings : list json) : json :=
  JObj [("network", network); ("mappings", JArr mappings)].

Definition local_config : json :=
  config_with (network_config "localhost" [("default_deployer", JStr "0xf39F")])
    [staking_mapping].

Definition transaction (type name addr hash : string) : json :=
  JObj [("hash", JStr hash); ("transactionType", JStr type);
        ("contractName", JStr name); ("contractAddress", JStr addr)].

Definition staking_tx : json := transaction "CREATE" "Staking" "0x5FbD" "0xaa01".
Definition unrecognized_tx : json := transaction "CREATE" "Unrecognized" "0xe7f1" "0xaa02".
Definition call_tx : json := transaction "CALL" "Staking" "0x5FbD" "0xaa03".

Definition record_of (txs : list json) : json := JObj [("transactions", JArr txs)].

(** A registrar whose [fetch_config] has stored [cfg]. *)
Definition loaded (cfg : json) : state :=
  {| self := {| api_url := "http://localhost:8080";
                req_headers := [("Content-Type", "application/json")];
                config := cfg |};
     posts := 0 |}.

(** ** Submissions, as the service sees them *)

Definition succeeded (o : http_outcome) : bool :=
  match o with
  | Responds r => ok r
  | Fails _ => false
  end.

Definition failed (o : http_outcome) : bool := negb (succeeded o).

(** The outcomes of posting [bodies] one after the other, [n] requests
    having been posted before. *)
Fixpoint submissions (w : world) (n : nat) (url : string) (h : headers)
    (bodies : list payload) : list http_outcome :=
  match bodies with
  | [] => []
  | b :: rest => http_post w n url b h :: submissions w (S n) url h rest
  end.

(** The line printed for one submission. *)
Definition registration_line (str_of : json -> string) (dep : Deployment)
    (o : http_outcome) : string :=
  match o with
  | Responds r =>
      if ok r
      then "  Registered " ++ str_of (db_name dep) ++ ": " ++ str_of (address dep)
      else "  Failed " ++ str_of (db_name dep) ++ ": "
             ++ str_of (JInt (status_code r)) ++ " - " ++ text r
  | Fails e => "  Failed " ++ str_of (db_name dep) ++ ": " ++ err_text e
  end.

(** The events of the submission loop: a request and a line per deployment. *)
Fixpoint registration_trace (str_of : json -> string) (w : world) (n : nat)
    (url : string) (h : headers) (chain_id : Z) (default_deployer : json)
    (deployments : list Deployment) : list event :=
  match deployments with
  | [] => []
  | dep :: rest =>
      let body := build_payload chain_id default_deployer dep in
      EPost url body h
        :: EPrint (registration_line str_of dep (http_post w n url body h))
        :: registration_trace str_of w (S n) url h chain_id default_deployer rest
  end.

Definition count {A} (f : A -> bool) (xs : list A) : Z :=
  Z.of_nat (List.length (filter f xs)).

Definition after_posts (s : state) (n : nat) : state :=
  {| self := self s; posts := (posts s + n)%nat |}.

(** [config["network"].get("default_deployer")]. *)
Definition configured_deployer (cfg : json) : result json :=
  match getitem cfg "network" with
  | Ok network => get network "default_deployer"
  | Raise e => Raise e
  end.

(** The network of [cfg] is a dict without a [default_deployer] key. *)
Definition deployer_missing (cfg : json) : bool :=
  match getitem cfg "network" with
  | Ok (JObj f) => negb (dict_has f "default_deployer")
  | _ => false
  end.

(** The network of [cfg] is a dict whose [default_deployer] is [d]. *)
Definition deployer_given (cfg : json) (d : json) : Prop :=
  exists f, getitem cfg "network" = Ok (JObj f)
            /\ dict_lookup f "default_deployer" = Some d.

Definition lacks_deployed_by (body : payload) : Prop :=
  dict_has body "deployed_by" = false.

(** ** Worlds for the examples *)

Definition ok_response (body : option json) : http_outcome :=
  Responds {| ok := true; status_code := 200; text := "OK"; body_json := body |}.

Definition error_response : http_outcome :=
  Responds {| ok := false; status_code := 500; text := "Internal Server Error";
              body_json := None |}.

(** A plain rendering of path expressions, standing for [resolve]. *)
Fixpoint show_path (p : path) : string :=
  match p with
  | ScriptDir => "/repo/contracts/script"
  | Parent q => show_path q ++ "/.."
  | Div q c => show_path q ++ "/" ++ c
  end.

(** The configuration service answers with [cfg], the record [record] is
    found at every candidate location, and the [n]-th POST is answered by
    [post n]. *)
Definition serving (cfg record : json) (post : nat -> http_outcome) : world :=
  {| http_get := fun _ _ =>
       ok_response (Some (JObj [("success", JBool true); ("data", cfg)]));
     http_post := fun n _ _ _ => post n;
     resolve := show_path;
     file_exists := fun _ => true;
     load_file := fun _ => Ok record |}.

Definition always_ok (n : nat) : http_outcome := ok_response None.

Definition second_fails (n : nat) : http_outcome :=
  if Nat.eqb n 1 then error_response else ok_response None.

Definition three_config : json :=
  config_with (network_config "localhost" [("default_deployer", JStr "0xf39F")])
    [staking_mapping; token_mapping; governor_mapping].

Definition three_record : json :=
  record_of [ transaction "CREATE" "Staking" "0x5FbD" "0xaa01";
              transaction "CREATE" "Token" "0xe7f1" "0xaa02";
              transaction "CREATE" "Governor" "0x9fE4" "0xaa03" ].

Definition three_deployments : list Deployment :=
  [ {| solidity_name := JStr "Staking"; db_name := JStr "nexusStaking";
       mapping_id := JInt 1; address := JStr "0x5FbD"; tx_hash := JStr "0xaa01" |};
    {| solidity_name := JStr "Token"; db_name := JStr "nexusToken";
       mapping_id := JInt 2; address := JStr "0xe7f1"; tx_hash := JStr "0xaa02" |};
    {| solidity_name := JStr "Governor"; db_name := JStr "nexusGovernor";
       mapping_id := JInt 3; address := JStr "0x9fE4"; tx_hash := JStr "0xaa03" |} ].

Definition default_args (dry_run : bool) : Args :=
  {| arg_chain_id := 31337; arg_api_url := "http://localhost:8080";
     arg_api_key := None; arg_script := "DeployLocal.s.sol";
     arg_dry_run := dry_run |}.

(** ** Dry and live runs *)

Definition with_dry_run (args : Args) (dry_run : bool) : Args :=
  {| arg_chain_id := arg_chain_id args; arg_api_url := arg_api_url args;
     arg_api_key := arg_api_key args; arg_script := arg_script args;
     arg_dry_run := dry_run |}.

(** The lines by which step 3 of [main] reports the deployments it is about
    to register, and the lines of the dry run. *)
Definition found_line (str_of : json -> string) (deployments : list Deployment)
  : string :=
  "   Found " ++ str_of (JInt (Z.of_nat (List.length deployments)))
    ++ " contracts to register:".

Definition listing_line (str_of : json -> string) (dep : Deployment) : string :=
  "     - " ++ str_of (db_name dep) ++ " (" ++ str_of (solidity_name dep) ++ "): "
    ++ str_of (address dep).

Definition would_line (str_of : json -> string) (dep : Deployment) : string :=
  "       " ++ str_of (db_name dep) ++ ": " ++ str_of (address dep).

Definition intended_report (str_of : json -> string) (deployments : list Deployment)
  : list event :=
  EPrint (found_line str_of deployments)
    :: map (fun dep => EPrint (listing_line str_of dep)) deployments.

Definition dry_run_report (str_of : json -> string) (deployments : list Deployment)
  : list event :=
  EPrint (nl ++ "[4/4] DRY RUN - Skipping registration")
    :: EPrint "     Would register:"
    :: map (fun dep => EPrint (would_line str_of dep)) deployments.

(** A configuration service that answers the GET with [o]; nothing else is
    reachable. *)
Definition answering (o : http_outcome) : world :=
  {| http_get := fun _ _ => o;
     http_post := fun _ _ _ _ => error_response;
     resolve := show_path;
     file_exists := fun _ => false;
     load_file := fun _ => Raise (FileNotFoundError "") |}.

Definition connection_refused : http_outcome :=
  Fails {| is_connection_error := true; is_timeout := false;
           err_text := "Connection refused" |}.

Definition read_timeout : http_outcome :=
  Fails {| is_connection_error := false; is_timeout := true;
           err_text := "Read timed out" |}.

Definition application_error : http_outcome :=
  ok_response (Some (JObj [("success", JBool false);
                           ("error", JStr "unknown chain")])).

Definition sepolia_config : json :=
  config_with (network_config "sepolia" []) [staking_mapping].

(** ** Further readings of a run *)

Definition is_print (e : event) : bool :=
  match e with
  | EPrint _ => true
  | _ => false
  end.

(** The configuration a response of the service delivers: a success status,
    a JSON dict with a truthy [success] and a [data] entry. *)
Definition served_config (o : http_outcome) : option json :=
  match o with
  | Responds r =>
      if ok r then
        match body_json r with
        | Some (JObj f) =>
            match dict_lookup f "success" with
            | Some v => if truthy v then dict_lookup f "data" else None
            | None => None
            end
        | _ => None
        end
      else None
  | Fails _ => None
  end.

(** The registrar after [self.config = d]. *)
Definition with_config (s : state) (d : json) : state :=
  {| self := {| api_url := api_url (self s);
                req_headers := req_headers (self s);
                config := d |};
     posts := posts s |}.

Definition config_url (str_of : json -> string) (s : state) (chain_id : Z) : string :=
  api_url (self s) ++ "/api/v1/contracts/config/" ++ str_of (JInt chain_id).

(** The first lines of every run. *)
Definition banner (str_of : json -> string) (args : Args) : list event :=
  [ EPrint (repeat_str "=" 60);
    EPrint "Nexus Protocol - Post-Deployment Contract Registration";
    EPrint (repeat_str "=" 60);
    EPrint (nl ++ "[1/4] Fetching config for chain "
               ++ str_of (JInt (arg_chain_id args)) ++ "...") ].

(** What [main] reads from the configuration for its summary: network name,
    display name, deployer (or its stand-in) and number of mappings. *)
Definition summary (cfg : json) : result (json * json * json * Z) :=
  match getitem cfg "network" with
  | Raise e => Raise e
  | Ok network =>
      match getitem network "network_name" with
      | Raise e => Raise e
      | Ok network_name =>
          match getitem network "display_name" with
          | Raise e => Raise e
          | Ok display_name =>
              match get_default network "default_deployer" (JStr "not configured") with
              | Raise e => Raise e
              | Ok deployer =>
                  match getitem cfg "mappings" with
                  | Raise e => Raise e
                  | Ok mappings =>
                      match len mappings with
                      | Raise e => Raise e
                      | Ok n => Ok (network_name, display_name, deployer, n)
                      end
                  end
              end
          end
      end
  end.

Definition summary_lines (str_of : json -> string) (x : json * json * json * Z)
  : list event :=
  let '(network_name, display_name, deployer, n) := x in
  [ EPrint ("   Network: " ++ str_of display_name ++ " (" ++ str_of network_name ++ ")");
    EPrint ("   Default deployer: " ++ str_of deployer);
    EPrint ("   Contract mappings: " ++ str_of (JInt n)) ].

(** [bool(args.api_key)]. *)
Definition key_given (args : Args) : bool :=
  match arg_api_key args with
  | Some k => negb (String.eqb k "")
  | None => false
  end.

(** The test of step 2 lets the run go on. *)
Definition gate_open (network_name : json) (args : Args) : bool :=
  eq_str network_name "localhost" || key_given args.

Definition without_api_key (args : Args) : Args :=
  {| arg_chain_id := arg_chain_id args; arg_api_url := arg_api_url args;
     arg_api_key := None; arg_script := arg_script args;
     arg_dry_run := arg_dry_run args |}.

Fixpoint ends_with_slash (s : string) : bool :=
  match s with
  | EmptyString => false
  | String c EmptyString => Ascii.eqb c "/"
  | String _ s' => ends_with_slash s'
  end.

(** A CREATE transaction whose name some mapping carries. *)
Definition mapped_create (mappings : list json) (tx : json) : bool :=
  is_create tx && existsb (names (field tx "contractName")) mappings.

Definition sepolia_args (key : string) : Args :=
  {| arg_chain_id := 11155111; arg_api_url := "https://api.example.org/";
     arg_api_key := Some key; arg_script := "Deploy.s.sol";
     arg_dry_run := false |}.

(** A world like [serving] in which no file exists. *)
Definition without_record (cfg : json) : world :=
  {| http_get := fun _ _ =>
       ok_response (Some (JObj [("success", JBool true); ("data", cfg)]));
     http_post := fun _ _ _ _ => error_response;
     resolve := show_path;
     file_exists := fun _ => false;
     load_file := fun _ => Raise (FileNotFoundError "no such file") |}.

Definition staking_v2_mapping : json :=
  JObj [("id", JInt 7); ("solidity_name", JStr "Staking");
        ("db_name", JStr "nexusStakingV2")].

(** ** Basic facts *)

Lemma bind_ok {A B} (m : M A) (k : A -> M B) s t s' a :
  m s = (t, s', Ok a) ->
  bind m k s = (let '(t', s'', r) := k a s' in ((t ++ t')%list, s'', r)).
Proof. intros H. unfold bind. rewrite H. reflexivity. Qed.

Lemma string_app_assoc (a b c : string) : (a ++ b) ++ c = a ++ (b ++ c).
Proof. induction a as [|x a IH]; simpl; [reflexivity|now rewrite IH]. Qed.

Lemma string_app_empty (a : string) : a ++ "" = a.
Proof. induction a as [|x a IH]; simpl; [reflexivity|now rewrite IH]. Qed.

Lemma occurs_in_join (sep x : string) (xs : list string) :
  In x xs -> occurs_in x (join sep xs).
Proof.
  induction xs as [|y ys IH]; intros Hin; [destruct Hin|].
  destruct Hin as [->|Hin].
  - destruct ys as [|z zs].
    + exists "", "". simpl. now rewrite string_app_empty.
    + exists "", (sep ++ join sep (z :: zs)). reflexivity.
  - destruct ys as [|z zs]; [destruct Hin|].
    destruct (IH Hin) as (b & a & E).
    exists (y ++ sep ++ b), a.
    change (join sep (y :: z :: zs)) with (y ++ sep ++ join sep (z :: zs)).
    rewrite E. now rewrite !string_app_assoc.
Qed.

Lemma occurs_in_context (sub s before after : string) :
  occurs_in sub s -> occurs_in sub (before ++ s ++ after).
Proof.
  intros (b & a & ->). exists (before ++ b), (a ++ after).
  now rewrite !string_app_assoc.
Qed.

(** ** The configuration must be loaded first *)

(** C10: with the stored config still [None], [extract_deployments] and
    [register_contracts] both raise [RuntimeError] at once: no event (no
    output, no request) is produced and the state is the one they were
    called in. *)
Theorem config_required (str_of : json -> string) (w : world) (s : state)
    (broadcast : json) (chain_id : Z) (deployments : list Deployment) :
  config (self s) = JNull ->
  extract_deployments str_of broadcast s
    = ([], s, Raise (RuntimeError "Config not loaded. Call fetch_config() first."))
  /\ register_contracts str_of w chain_id deployments s
    = ([], s, Raise (RuntimeError "Config not loaded. Call fetch_config() first.")).
Proof.
  intros H. unfold extract_deployments, register_contracts, bind, get_self, raise.
  rewrite H. split; reflexivity.
Qed.

(** ** Failures of the configuration fetch *)

Ltac run_m :=
  cbv [bind ret raise lift emit print get_self set_config try_catch answer
       requests_get].

(** C7: in each of the four failure modes of the configuration service
    (unreachable, timeout, non-success status, application error flag)
    [fetch_config] raises a [RuntimeError] right after its one GET request,
    returns no configuration and leaves the stored one untouched; the message
    tells the caller which of the four modes occurred. *)
Theorem fetch_config_failures (str_of : json -> string) (w : world)
    (chain_id : Z) (s : state) (mode : failure_mode) :
  let url := api_url (self s) ++ "/api/v1/contracts/config/" ++ str_of (JInt chain_id) in
  failure_of (http_get w url (req_headers (self s))) = Some mode ->
  exists msg,
    fetch_config str_of w chain_id s
      = ([EGet url (req_headers (self s))], s, Raise (RuntimeError msg))
    /\ classify_error msg = Some mode.
Proof.
  intros url H. unfold fetch_config. run_m. fold url.
  destruct (http_get w url (req_headers (self s))) as [r|e]; simpl in H.
  - destruct (ok r) eqn:Hok; simpl in H |- *.
    + destruct (body_json r) as [[| | | | |f]|]; try discriminate.
      unfold get, get_default.
      destruct (dict_lookup f "success") as [v|].
      * destruct (truthy v); [discriminate|]. injection H as <-.
        simpl. destruct (dict_lookup f "error"); eexists; split; reflexivity.
      * injection H as <-.
        simpl. destruct (dict_lookup f "error"); eexists; split; reflexivity.
    + injection H as <-. eexists; split; reflexivity.
  - destruct (is_connection_error e).
    + injection H as <-. eexists; split; reflexivity.
    + destruct (is_timeout e); [|discriminate].
      injection H as <-. eexists; split; reflexivity.
Qed.

(** ** Finding the deployment record *)

Lemma find_broadcast_spec (w : world) (paths : list path) (s : state) :
  find_broadcast w paths s
    = (map (probe w) (probed w paths), s,
       Ok (option_map (resolve w) (find (candidate_exists w) paths))).
Proof.
  induction paths as [|p rest IH]; [reflexivity|].
  simpl. unfold candidate_exists. run_m.
  destruct (file_exists w (resolve w p)); [reflexivity|].
  rewrite IH. reflexivity.
Qed.

Lemma probed_none (w : world) (paths : list path) :
  find (candidate_exists w) paths = None -> probed w paths = paths.
Proof.
  induction paths as [|p rest IH]; [reflexivity|].
  simpl. unfold candidate_exists at 1.
  destruct (file_exists w (resolve w p)); [discriminate|].
  intros H. now rewrite IH.
Qed.

Lemma probed_some (w : world) (paths : list path) (p : path) :
  find (candidate_exists w) paths = Some p ->
  exists before after,
    paths = (before ++ p :: after)%list
    /\ forallb (fun q => negb (candidate_exists w q)) before = true
    /\ candidate_exists w p = true
    /\ probed w paths = (before ++ [p])%list.
Proof.
  induction paths as [|q rest IH]; [discriminate|].
  simpl. unfold candidate_exists at 1.
  destruct (file_exists w (resolve w q)) eqn:E.
  - intros [= ->]. exists [], rest. repeat split; assumption.
  - intros H. destruct (IH H) as (b & a & -> & Hb & Hp & Hpr).
    exists (q :: b), a. simpl. unfold candidate_exists at 1.
    rewrite E, Hb, Hpr. repeat split. assumption.
Qed.

(** C8: [load_broadcast_json] probes its candidate locations in the order
    they are listed and stops at the first one that exists, which it
    announces, opens and loads; when no candidate exists it has probed all of
    them and raises [FileNotFoundError] with a message in which the resolved
    location of every candidate occurs. *)
Theorem load_broadcast_json_search (str_of : json -> string) (w : world)
    (chain_id : Z) (script_name : string) (s : state) :
  let paths := possible_paths str_of chain_id script_name in
  match find (candidate_exists w) paths with
  | Some p =>
      (exists before after,
          paths = (before ++ p :: after)%list
          /\ forallb (fun q => negb (candidate_exists w q)) before = true
          /\ candidate_exists w p = true
          /\ load_broadcast_json str_of w chain_id script_name s
             = ((map (probe w) (before ++ [p])
                  ++ [EPrint ("Loading broadcast from: " ++ resolve w p);
                      EOpen (resolve w p)])%list,
                s, load_file w (resolve w p)))
  | None =>
      exists msg,
        load_broadcast_json str_of w chain_id script_name s
          = (map (probe w) paths, s, Raise (FileNotFoundError msg))
        /\ forall p, In p paths -> occurs_in (resolve w p) msg
  end.
Proof.
  intros paths. unfold load_broadcast_json. fold paths.
  destruct (find (candidate_exists w) paths) as [p|] eqn:F.
  - destruct (probed_some _ _ _ F) as (b & a & E & Hb & Hp & Hpr).
    exists b, a. repeat split; try assumption.
    erewrite bind_ok by apply find_broadcast_spec.
    rewrite F, Hpr. cbn [option_map]. run_m. cbn [app]. reflexivity.
  - eexists. split.
    + erewrite bind_ok by apply find_broadcast_spec.
      rewrite F, (probed_none _ _ F). cbn [option_map]. run_m.
      rewrite app_nil_r. reflexivity.
    + intros p Hp.
      apply (occurs_in_context _ _ ("Broadcast file not found. Searched:" ++ nl)).
      apply occurs_in_join. now apply in_map.
Qed.

(** ** Cross-referencing *)

Lemma key_eqb_sym (a b : json) : key_eqb a b = key_eqb b a.
Proof.
  destruct a, b; simpl; try reflexivity.
  - now destruct b, b0.
  - apply Z.eqb_sym.
  - apply String.eqb_sym.
Qed.

Lemma key_eqb_trans (a b c : json) :
  key_eqb a b = true -> key_eqb b c = key_eqb a c.
Proof.
  destruct a, b; simpl; try discriminate; intros H; destruct c; simpl;
    try reflexivity;
    repeat match goal with
           | H : Bool.eqb _ _ = true |- _ => apply Bool.eqb_prop in H; subst
           | H : (_ =? _) = true |- _ => apply Z.eqb_eq in H; subst
           | H : String.eqb _ _ = true |- _ => apply String.eqb_eq in H; subst
           end; try reflexivity;
    repeat match goal with b : bool |- _ => destruct b end; reflexivity.
Qed.

Lemma vdict_find_store (d : vdict) (k m q : json) :
  vdict_find (vdict_store d k m) q
    = if key_eqb k q then Some m else vdict_find d q.
Proof.
  induction d as [|[k' v'] d IH]; simpl.
  - reflexivity.
  - destruct (key_eqb k' k) eqn:E; simpl.
    + rewrite (key_eqb_trans _ _ q E). now destruct (key_eqb k' q).
    + rewrite IH. destruct (key_eqb k q) eqn:E'; [|reflexivity].
      destruct (key_eqb k' q) eqn:E''; [|reflexivity].
      pose proof (key_eqb_trans _ _ k E'') as T.
      rewrite key_eqb_sym, E', E in T. discriminate.
Qed.

Lemma find_app_last {A} (f : A -> bool) (xs : list A) (x : A) :
  find f (xs ++ [x])
    = match find f xs with
      | Some y => Some y
      | None => if f x then Some x else None
      end.
Proof.
  induction xs as [|y ys IH]; simpl; [reflexivity|].
  destruct (f y); [reflexivity|apply IH].
Qed.

Lemma mapping_for_cons (m : json) (rest : list json) (q : json) :
  mapping_for (m :: rest) q
    = match mapping_for rest q with
      | Some x => Some x
      | None => if names q m then Some m else None
      end.
Proof. unfold mapping_for. simpl rev. apply find_app_last. Qed.

Lemma mapping_for_in (mappings : list json) (q m : json) :
  mapping_for mappings q = Some m -> In m mappings /\ names q m = true.
Proof.
  unfold mapping_for. intros H. apply find_some in H.
  destruct H as [Hin Hn]. split; [now apply in_rev|assumption].
Qed.

Lemma mapping_for_none (mappings : list json) (q : json) :
  mapping_for mappings q = None <-> existsb (names q) mappings = false.
Proof.
  unfold mapping_for. split; intros H.
  - destruct (existsb (names q) mappings) eqn:E; [|reflexivity].
    apply existsb_exists in E. destruct E as (m & Hin & Hm).
    apply in_rev in Hin. 
    pose proof (find_none _ _ H _ Hin) as N. congruence.
  - destruct (find (names q) (rev mappings)) as [m|] eqn:E; [|reflexivity].
    apply find_some in E. destruct E as [Hin Hm]. apply in_rev in Hin.
    assert (existsb (names q) mappings = true) as T
      by (apply existsb_exists; eauto).
    congruence.
Qed.

Lemma get_dict (f : list (string * json)) (key : string) :
  get (JObj f) key = Ok (field (JObj f) key).
Proof.
  unfold field, get, get_default. now destruct (dict_lookup f key).
Qed.

Lemma well_formed_mapping_items (m : json) :
  well_formed_mapping m = true ->
  (exists k, getitem m "solidity_name" = Ok k /\ hashable k = true)
  /\ getitem m "db_name" = Ok (item m "db_name")
  /\ getitem m "id" = Ok (item m "id").
Proof.
  unfold well_formed_mapping, item. intros H.
  apply andb_prop in H. destruct H as [H Hid].
  apply andb_prop in H. destruct H as [Hk Hdb].
  split; [|split].
  - destruct (getitem m "solidity_name") as [k|]; [eauto|discriminate].
  - destruct (getitem m "db_name"); [reflexivity|discriminate].
  - destruct (getitem m "id"); [reflexivity|discriminate].
Qed.

Lemma build_solidity_to_mapping_spec (ms : list json) (d : vdict) :
  forallb well_formed_mapping ms = true ->
  exists d',
    build_solidity_to_mapping ms d = Ok d'
    /\ forall q, vdict_find d' q
                 = match mapping_for ms q with
                   | Some m => Some m
                   | None => vdict_find d q
                   end.
Proof.
  revert d. induction ms as [|m rest IH]; intros d H.
  - exists d. split; reflexivity.
  - simpl in H. apply andb_prop in H. destruct H as [Hm Hrest].
    destruct (well_formed_mapping_items _ Hm) as ((k & Hk & Hh) & _).
    destruct (IH (vdict_store d k m) Hrest) as (d' & Hb & Hf).
    exists d'. simpl. rewrite Hk, Hh. split; [assumption|].
    intros q. rewrite Hf, mapping_for_cons, vdict_find_store.
    unfold names. rewrite Hk.
    destruct (mapping_for rest q); [reflexivity|].
    now destruct (key_eqb k q).
Qed.

Lemma extract_loop_spec (str_of : json -> string) (mappings : list json)
    (d : vdict) (txs : list json) (acc : list Deployment) (s : state) :
  (forall q, vdict_find d q = mapping_for mappings q) ->
  forallb well_formed_mapping mappings = true ->
  forallb well_formed_tx txs = true ->
  extract_loop str_of d txs acc s
    = (flat_map (report_for str_of mappings) txs, s,
       Ok (acc ++ flat_map (deployment_for mappings) txs)%list).
Proof.
  intros Hd Hms. revert acc.
  induction txs as [|tx rest IH]; intros acc Htx.
  - simpl. now rewrite app_nil_r.
  - simpl in Htx. apply andb_prop in Htx. destruct Htx as [Hwf Hrest].
    destruct tx as [| | | | |f]; try discriminate.
    cbn [extract_loop flat_map]. unfold report_for at 1, deployment_for at 1.
    unfold well_formed_tx in Hwf. unfold is_create in *. run_m. rewrite get_dict.
    destruct (eq_str (field (JObj f) "transactionType") "CREATE") eqn:Ec.
    + cbn [negb orb] in Hwf. rewrite get_dict. unfold contains, vdict_get.
      rewrite Hwf, Hd.
      destruct (mapping_for mappings (field (JObj f) "contractName")) as [m|] eqn:Em.
      * destruct (mapping_for_in _ _ _ Em) as [Hin _].
        rewrite forallb_forall in Hms.
        destruct (well_formed_mapping_items _ (Hms _ Hin)) as (_ & Hdb & Hid).
        rewrite Hdb, Hid, !get_dict, IH by assumption.
        cbn [app]. rewrite <- app_assoc. reflexivity.
      * rewrite IH by assumption. reflexivity.
    + rewrite IH by assumption. reflexivity.
Qed.

Lemma extract_deployments_spec (str_of : json -> string) (broadcast : json)
    (s : state) (mappings txs : list json) :
  mappings_of (config (self s)) = Ok mappings ->
  forallb well_formed_mapping mappings = true ->
  transactions_of broadcast = Ok txs ->
  forallb well_formed_tx txs = true ->
  extract_deployments str_of broadcast s
    = (flat_map (report_for str_of mappings) txs, s,
       Ok (flat_map (deployment_for mappings) txs)).
Proof.
  intros Hm Hwm Ht Hwt. unfold extract_deployments, mappings_of, transactions_of in *.
  run_m.
  destruct (config (self s)) as [| | | | |cf]; try discriminate.
  destruct (getitem (JObj cf) "mappings") as [ms|]; [|discriminate].
  rewrite Hm.
  destruct (build_solidity_to_mapping_spec mappings [] Hwm) as (d & Hb & Hf).
  rewrite Hb.
  destruct (get_default broadcast "transactions" (JArr [])) as [tv|]; [|discriminate].
  rewrite Ht.
  rewrite (extract_loop_spec str_of mappings) by
    (try assumption; intros q; rewrite Hf; now destruct (mapping_for mappings q)).
  reflexivity.
Qed.

(** C1: on a loaded configuration with well-formed mappings and a record
    with well-formed transactions, [extract_deployments] returns, in the
    order of the record, exactly one Deployment (name, [db_name] and [id] of
    a mapping carrying the name, address, hash) for each CREATE transaction
    whose [contractName] is the [solidity_name] of some mapping, and nothing
    for any other transaction. *)
Theorem extract_deployments_exact (str_of : json -> string) (broadcast : json)
    (s : state) (mappings txs : list json) :
  mappings_of (config (self s)) = Ok mappings ->
  forallb well_formed_mapping mappings = true ->
  transactions_of broadcast = Ok txs ->
  forallb well_formed_tx txs = true ->
  (exists t,
      extract_deployments str_of broadcast s
        = (t, s, Ok (flat_map (deployment_for mappings) txs)))
  /\ forall tx,
      if is_create tx && existsb (names (field tx "contractName")) mappings
      then exists m, In m mappings
                     /\ names (field tx "contractName") m = true
                     /\ deployment_for mappings tx = [deployment_of tx m]
      else deployment_for mappings tx = [].
Proof.
  intros Hm Hwm Ht Hwt. split.
  - eexists. now apply extract_deployments_spec.
  - intros tx. unfold deployment_for.
    destruct (is_create tx); [|reflexivity]. cbn [andb].
    destruct (mapping_for mappings (field tx "contractName")) as [m|] eqn:E.
    + destruct (mapping_for_in _ _ _ E) as [Hin Hn].
      assert (existsb (names (field tx "contractName")) mappings = true) as ->
        by (apply existsb_exists; eauto).
      eauto.
    + apply mapping_for_none in E. now rewrite E.
Qed.

Lemma extract_deployments_exact_witness :
  exists t,
    extract_deployments str_scalar
      (record_of [staking_tx; call_tx; unrecognized_tx]) (loaded local_config)
    = (t, loaded local_config,
       Ok [ {| solidity_name := JStr "Staking"; db_name := JStr "nexusStaking";
               mapping_id := JInt 1; address := JStr "0x5FbD";
               tx_hash := JStr "0xaa01" |} ]).
Proof.
  exact (proj1 (extract_deployments_exact str_scalar
                  (record_of [staking_tx; call_tx; unrecognized_tx])
                  (loaded local_config) [staking_mapping]
                  [staking_tx; call_tx; unrecognized_tx]
                  eq_refl eq_refl eq_refl eq_refl)).
Defined.

(** C2, as the code has it: each CREATE transaction whose [contractName] no
    mapping carries is reported by one skip message, in the order of the
    record, and these are all the messages; a CREATE transaction with a known
    name is not reported, and a transaction of another type gives neither a
    Deployment nor a message. *)
Theorem unmapped_creates_reported (str_of : json -> string) (broadcast : json)
    (s : state) (mappings txs : list json) :
  mappings_of (config (self s)) = Ok mappings ->
  forallb well_formed_mapping mappings = true ->
  transactions_of broadcast = Ok txs ->
  forallb well_formed_tx txs = true ->
  (exists ds,
      extract_deployments str_of broadcast s
        = (flat_map (report_for str_of mappings) txs, s, Ok ds))
  /\ forall tx,
      (is_create tx = true ->
       report_for str_of mappings tx
         = if existsb (names (field tx "contractName")) mappings
           then []
           else [EPrint (skip_line str_of tx)])
      /\ (is_create tx = false ->
          report_for str_of mappings tx = [] /\ deployment_for mappings tx = []).
Proof.
  intros Hm Hwm Ht Hwt. split.
  - eexists. now apply extract_deployments_spec.
  - intros tx. unfold report_for, deployment_for. split; intros ->.
    + destruct (mapping_for mappings (field tx "contractName")) as [m|] eqn:E.
      * destruct (mapping_for_in _ _ _ E) as [Hin Hn].
        assert (existsb (names (field tx "contractName")) mappings = true) as ->
          by (apply existsb_exists; eauto).
        reflexivity.
      * apply mapping_for_none in E. now rewrite E.
    + split; reflexivity.
Qed.

Lemma unmapped_creates_reported_witness :
  exists ds,
    extract_deployments str_scalar
      (record_of [staking_tx; call_tx; unrecognized_tx]) (loaded local_config)
    = ([EPrint "  Skipping Unrecognized: not in contract_mappings table"],
       loaded local_config, Ok ds).
Proof.
  exact (proj1 (unmapped_creates_reported str_scalar
                  (record_of [staking_tx; call_tx; unrecognized_tx])
                  (loaded local_config) [staking_mapping]
                  [staking_tx; call_tx; unrecognized_tx]
                  eq_refl eq_refl eq_refl eq_refl)).
Defined.

(** C2 as stated fails: a record whose only transaction is a CALL gives no
    Deployment, and nothing at all is printed about that transaction. *)
Lemma non_create_dropped_silently :
  extract_deployments str_scalar (record_of [call_tx]) (loaded local_config)
    = ([], loaded local_config, Ok [])
  /\ deployment_for [staking_mapping] call_tx = []
  /\ ~ (exists line,
          In (EPrint line)
             (fst (fst (extract_deployments str_scalar (record_of [call_tx])
                          (loaded local_config))))).
Proof.
  split; [reflexivity|]. split; [reflexivity|].
  intros (line & H). exact H.
Qed.

(** ** Registration *)

Lemma register_one_spec (str_of : json -> string) (w : world) (chain_id : Z)
    (dd : json) (sc fc : Z) (dep : Deployment) (s : state) :
  let url := api_url (self s) ++ "/api/v1/contracts" in
  let h := req_headers (self s) in
  let body := build_payload chain_id dd dep in
  let o := http_post w (posts s) url body h in
  register_one str_of w chain_id dd (sc, fc) dep s
    = ([EPost url body h; EPrint (registration_line str_of dep o)],
       {| self := self s; posts := S (posts s) |},
       Ok (if succeeded o then (sc + 1, fc) else (sc, fc + 1))).
Proof.
  intros url h body o. unfold register_one, requests_post. run_m.
  cbn [self posts]. fold url h body o.
  destruct o as [r|e]; cbn [succeeded registration_line].
  - destruct (ok r); reflexivity.
  - reflexivity.
Qed.

Lemma count_cons {A} (f : A -> bool) (x : A) (xs : list A) :
  count f (x :: xs) = (if f x then 1 else 0) + count f xs.
Proof.
  unfold count. simpl. destruct (f x); simpl List.length; lia.
Qed.

Lemma register_loop_spec (str_of : json -> string) (w : world) (chain_id : Z)
    (dd : json) (deps : list Deployment) (sc fc : Z) (s : state) :
  let url := api_url (self s) ++ "/api/v1/contracts" in
  let h := req_headers (self s) in
  let outcomes :=
    submissions w (posts s) url h (map (build_payload chain_id dd) deps) in
  register_loop str_of w chain_id dd deps (sc, fc) s
    = (registration_trace str_of w (posts s) url h chain_id dd deps,
       after_posts s (List.length deps),
       Ok (sc + count succeeded outcomes, fc + count failed outcomes)).
Proof.
  revert sc fc s. induction deps as [|dep rest IH]; intros sc fc s.
  - cbn. unfold ret, after_posts. destruct s as [me n]. cbn.
    now rewrite Nat.add_0_r, !Z.add_0_r.
  - cbn zeta. cbn [register_loop]. 
    erewrite bind_ok by apply register_one_spec.
    destruct (succeeded _) eqn:E.
    all: rewrite IH; cbn [self posts map submissions registration_trace app];
      rewrite !count_cons; unfold failed at 2; rewrite E; cbn [negb];
      unfold after_posts; cbn [self posts List.length];
      replace (S (posts s) + List.length rest)%nat
        with (posts s + S (List.length rest))%nat by lia;
      do 2 f_equal; f_equal; lia.
Qed.

Lemma posted_registration_trace (str_of : json -> string) (w : world) (n : nat)
    (url : string) (h : headers) (chain_id : Z) (dd : json)
    (deps : list Deployment) :
  posted (registration_trace str_of w n url h chain_id dd deps)
    = map (build_payload chain_id dd) deps.
Proof.
  revert n. induction deps as [|dep rest IH]; intros n; [reflexivity|].
  cbn. now rewrite IH.
Qed.

Lemma count_split {A} (f : A -> bool) (xs : list A) :
  count f xs + count (fun x => negb (f x)) xs = Z.of_nat (List.length xs).
Proof.
  induction xs as [|x xs IH]; [reflexivity|].
  rewrite !count_cons. cbn [List.length]. destruct (f x); cbn [negb]; lia.
Qed.

Lemma submissions_length (w : world) (n : nat) (url : string) (h : headers)
    (bodies : list payload) :
  List.length (submissions w n url h bodies) = List.length bodies.
Proof.
  revert n. induction bodies as [|b rest IH]; intros n; [reflexivity|].
  cbn. now rewrite IH.
Qed.

Lemma register_contracts_spec (str_of : json -> string) (w : world)
    (chain_id : Z) (deps : list Deployment) (s : state) (dd : json) :
  configured_deployer (config (self s)) = Ok dd ->
  let url := api_url (self s) ++ "/api/v1/contracts" in
  let h := req_headers (self s) in
  let outcomes :=
    submissions w (posts s) url h (map (build_payload chain_id dd) deps) in
  register_contracts str_of w chain_id deps s
    = (registration_trace str_of w (posts s) url h chain_id dd deps,
       after_posts s (List.length deps),
       Ok (count succeeded outcomes, count failed outcomes)).
Proof.
  intros H url h outcomes. unfold register_contracts, configured_deployer in *.
  run_m.
  destruct (config (self s)) as [| | | | |cf]; try discriminate.
  destruct (getitem (JObj cf) "network") as [network|]; [|discriminate].
  rewrite H. rewrite register_loop_spec. reflexivity.
Qed.

Lemma build_payload_falsy (chain_id : Z) (d : json) (dep : Deployment) :
  truthy d = false ->
  build_payload chain_id d dep = build_payload chain_id JNull dep
  /\ lacks_deployed_by (build_payload chain_id d dep).
Proof.
  intros H. unfold build_payload, lacks_deployed_by. rewrite H. now split.
Qed.

Lemma build_payload_truthy (chain_id : Z) (d : json) (dep : Deployment) :
  truthy d = true ->
  dict_lookup (build_payload chain_id d dep) "deployed_by" = Some d.
Proof.
  intros H. unfold build_payload. rewrite H. reflexivity.
Qed.

(** C5: when the network of the fetched configuration has no
    [default_deployer] (the key is missing, or null: the lookup gives
    [None]), every payload [register_contracts] posts, one per Deployment,
    has no [deployed_by] key at all; when it provides one (a non-empty
    value), every payload carries it as [deployed_by]. *)
Theorem deployed_by_only_when_configured (str_of : json -> string) (w : world)
    (chain_id : Z) (deps : list Deployment) (s : state) (d : json) :
  configured_deployer (config (self s)) = Ok d ->
  exists t s' r,
    register_contracts str_of w chain_id deps s = (t, s', Ok r)
    /\ List.length (posted t) = List.length deps
    /\ (d = JNull -> Forall lacks_deployed_by (posted t))
    /\ (truthy d = true ->
        Forall (fun body => dict_lookup body "deployed_by" = Some d) (posted t)).
Proof.
  intros Hd.
  do 3 eexists. split; [apply (register_contracts_spec _ _ _ _ _ _ Hd)|].
  rewrite posted_registration_trace, length_map. split; [reflexivity|].
  split.
  - intros ->. apply Forall_forall. intros body Hin. apply in_map_iff in Hin.
    destruct Hin as (dep & <- & _). reflexivity.
  - intros Ht. apply Forall_forall. intros body Hin. apply in_map_iff in Hin.
    destruct Hin as (dep & <- & _). now apply build_payload_truthy.
Qed.

Lemma deployed_by_only_when_configured_witness :
  (exists t s' r,
      register_contracts str_scalar (serving JNull JNull always_ok) 31337
        three_deployments
        (loaded (config_with (network_config "localhost" []) [])) = (t, s', Ok r)
      /\ List.length (posted t) = 3%nat
      /\ Forall lacks_deployed_by (posted t))
  /\ (exists t s' r,
      register_contracts str_scalar (serving JNull JNull always_ok) 31337
        three_deployments (loaded three_config) = (t, s', Ok r)
      /\ List.length (posted t) = 3%nat
      /\ Forall (fun body => dict_lookup body "deployed_by" = Some (JStr "0xf39F"))
           (posted t)).
Proof.
  split.
  - destruct (deployed_by_only_when_configured str_scalar
                (serving JNull JNull always_ok) 31337 three_deployments
                (loaded (config_with (network_config "localhost" []) []))
                JNull eq_refl) as (t & s' & r & Hr & Hl & Hn & _).
    exists t, s', r. split; [exact Hr|]. split; [exact Hl|]. exact (Hn eq_refl).
  - destruct (deployed_by_only_when_configured str_scalar
                (serving JNull JNull always_ok) 31337 three_deployments
                (loaded three_config) (JStr "0xf39F") eq_refl)
      as (t & s' & r & Hr & Hl & _ & Hs).
    exists t, s', r. split; [exact Hr|]. split; [exact Hl|]. exact (Hs eq_refl).
Defined.

(** C9: the test is truthiness.  With a [default_deployer] that is present
    but falsy (the empty string, or null), [register_contracts] behaves
    exactly as on a configuration without the key: the same requests with the
    same payloads, none of which has a [deployed_by] key, the same output and
    the same counts. *)
Theorem falsy_deployer_as_missing (str_of : json -> string) (w : world)
    (chain_id : Z) (deps : list Deployment) (s1 s2 : state) (d : json) :
  api_url (self s1) = api_url (self s2) ->
  req_headers (self s1) = req_headers (self s2) ->
  posts s1 = posts s2 ->
  deployer_given (config (self s1)) d ->
  truthy d = false ->
  deployer_missing (config (self s2)) = true ->
  truthy (JStr "") = false /\ truthy JNull = false
  /\ exists t s1' s2' r,
      register_contracts str_of w chain_id deps s1 = (t, s1', Ok r)
      /\ register_contracts str_of w chain_id deps s2 = (t, s2', Ok r)
      /\ List.length (posted t) = List.length deps
      /\ Forall lacks_deployed_by (posted t).
Proof.
  intros Hu Hh Hp (f & En & El) Ht Hm.
  split; [reflexivity|]. split; [reflexivity|].
  assert (configured_deployer (config (self s1)) = Ok d) as H1.
  { unfold configured_deployer, get, get_default. now rewrite En, El. }
  assert (configured_deployer (config (self s2)) = Ok JNull) as H2.
  { unfold deployer_missing, dict_has in Hm.
    unfold configured_deployer, get, get_default.
    destruct (getitem (config (self s2)) "network") as [[| | | | |f2]|];
      try discriminate.
    now destruct (dict_lookup f2 "default_deployer"). }
  assert (forall dep, build_payload chain_id d dep = build_payload chain_id JNull dep)
    as Hb by (intros dep; now apply build_payload_falsy).
  assert (forall n, registration_trace str_of w n
                      (api_url (self s2) ++ "/api/v1/contracts")
                      (req_headers (self s2)) chain_id d deps
                    = registration_trace str_of w n
                      (api_url (self s2) ++ "/api/v1/contracts")
                      (req_headers (self s2)) chain_id JNull deps) as Ht'.
  { induction deps as [|dep rest IH]; intros n; [reflexivity|].
    cbn. now rewrite Hb, IH. }
  do 4 eexists. split; [|split; [|split]].
  - rewrite (register_contracts_spec _ _ _ _ _ _ H1). rewrite Hu, Hh, Hp.
    rewrite Ht'. rewrite (map_ext _ _ Hb). reflexivity.
  - rewrite (register_contracts_spec _ _ _ _ _ _ H2). reflexivity.
  - now rewrite posted_registration_trace, length_map.
  - rewrite posted_registration_trace. apply Forall_forall.
    intros body Hin. apply in_map_iff in Hin. destruct Hin as (dep & <- & _).
    reflexivity.
Qed.

Lemma falsy_deployer_as_missing_witness :
  exists t s1' s2' r,
    register_contracts str_scalar (serving JNull JNull always_ok) 31337
      three_deployments
      (loaded (config_with
                 (network_config "localhost" [("default_deployer", JStr "")]) []))
      = (t, s1', Ok r)
    /\ register_contracts str_scalar (serving JNull JNull always_ok) 31337
         three_deployments
         (loaded (config_with (network_config "localhost" []) []))
       = (t, s2', Ok r)
    /\ List.length (posted t) = 3%nat
    /\ Forall lacks_deployed_by (posted t).
Proof.
  exact (proj2 (proj2
    (falsy_deployer_as_missing str_scalar (serving JNull JNull always_ok) 31337
       three_deployments
       (loaded (config_with
                  (network_config "localhost" [("default_deployer", JStr "")]) []))
       (loaded (config_with (network_config "localhost" []) []))
       (JStr "") eq_refl eq_refl eq_refl
       (ex_intro _ _ (conj eq_refl eq_refl)) eq_refl eq_refl))).
Defined.

Lemma for_each_print {A} (line : A -> string) (xs : list A) (s : state) :
  for_each xs (fun x => print (line x)) s
    = (map (fun x => EPrint (line x)) xs, s, Ok tt).
Proof.
  induction xs as [|x xs IH]; [reflexivity|].
  cbn [for_each map]. erewrite bind_ok by reflexivity.
  rewrite IH. reflexivity.
Qed.

Lemma posted_app (t t' : list event) :
  posted (t ++ t') = (posted t ++ posted t')%list.
Proof.
  induction t as [|e t IH]; [reflexivity|].
  destruct e; cbn; now rewrite IH.
Qed.

Lemma posted_prints {A} (line : A -> string) (xs : list A) :
  posted (map (fun x => EPrint (line x)) xs) = [].
Proof. induction xs; [reflexivity|assumption]. Qed.

(** Step 4 of [main], live, on a non-empty list of deployments. *)
Lemma main_register_live (str_of : json -> string) (w : world) (args : Args)
    (deps : list Deployment) (s : state) (dd : json) :
  configured_deployer (config (self s)) = Ok dd ->
  deps <> [] ->
  arg_dry_run args = false ->
  let url := api_url (self s) ++ "/api/v1/contracts" in
  let h := req_headers (self s) in
  let outcomes :=
    submissions w (posts s) url h
      (map (build_payload (arg_chain_id args) dd) deps) in
  exists t,
    main_register str_of w args deps s
      = ((EPrint (nl ++ "[4/4] Registering contracts...")
            :: registration_trace str_of w (posts s) url h (arg_chain_id args) dd deps
            ++ t)%list,
         after_posts s (List.length deps),
         if count failed outcomes =? 0 then Ok tt else Raise (SystemExit 1))
    /\ posted t = [].
Proof.
  intros Hd Hne Hdry url h outcomes. unfold main_register.
  destruct deps as [|dep rest]; [congruence|]. rewrite Hdry.
  set (deps := dep :: rest) in *.
  erewrite bind_ok by reflexivity.
  erewrite bind_ok by (apply register_contracts_spec; eassumption).
  fold url h outcomes. run_m.
  destruct (count failed outcomes =? 0); eexists; split;
    try reflexivity; reflexivity.
Qed.

(** C4: [register_contracts] posts one request for every Deployment, in
    order, whatever the earlier requests came to, and returns the number of
    requests that succeeded and the number that failed; with three
    deployments of which the second fails the result is [(2, 1)], three
    requests are posted, and [main] ends with [sys.exit(1)]. *)
Theorem register_contracts_counts (str_of : json -> string) (w : world)
    (args : Args) (deps : list Deployment) (s : state) (dd : json) :
  configured_deployer (config (self s)) = Ok dd ->
  let chain_id := arg_chain_id args in
  let url := api_url (self s) ++ "/api/v1/contracts" in
  let bodies := map (build_payload chain_id dd) deps in
  let outcomes := submissions w (posts s) url (req_headers (self s)) bodies in
  exists t s',
    register_contracts str_of w chain_id deps s
      = (t, s', Ok (count succeeded outcomes, count failed outcomes))
    /\ posted t = bodies
    /\ List.length outcomes = List.length deps
    /\ count succeeded outcomes + count failed outcomes = Z.of_nat (List.length deps)
    /\ (map succeeded outcomes = [true; false; true] ->
        (count succeeded outcomes, count failed outcomes) = (2, 1)
        /\ List.length (posted t) = 3%nat)
    /\ (deps <> [] -> arg_dry_run args = false -> count failed outcomes <> 0 ->
        exists t' s'',
          main_register str_of w args deps s = (t', s'', Raise (SystemExit 1))
          /\ exit_code (Raise (SystemExit 1)) = 1
          /\ posted t' = bodies).
Proof.
  intros Hd chain_id url bodies outcomes.
  do 2 eexists. split; [apply register_contracts_spec; eassumption|].
  fold chain_id url bodies outcomes.
  assert (List.length outcomes = List.length deps) as Hlen
    by (unfold outcomes, bodies; now rewrite submissions_length, length_map).
  split; [apply posted_registration_trace|]. split; [assumption|].
  split; [|split].
  - rewrite <- Hlen. apply count_split.
  - rewrite posted_registration_trace. fold bodies. intros Hm.
    assert (List.length outcomes = 3%nat) as H3
      by (rewrite <- (length_map succeeded), Hm; reflexivity).
    split.
    + unfold count, failed.
      destruct outcomes as [|o1 [|o2 [|o3 [|o4 os]]]]; try discriminate.
      cbn in Hm. injection Hm as E1 E2 E3. cbn. now rewrite E1, E2, E3.
    + unfold bodies. rewrite length_map. congruence.
  - intros Hne Hdry Hf.
    destruct (main_register_live str_of w args deps s dd Hd Hne Hdry)
      as (t & Hr & Hp).
    fold chain_id url bodies outcomes in Hr.
    apply Z.eqb_neq in Hf. rewrite Hf in Hr.
    do 2 eexists. split; [exact Hr|]. split; [reflexivity|].
    cbn [posted]. rewrite posted_app, posted_registration_trace, Hp.
    apply app_nil_r.
Qed.

Lemma register_contracts_counts_witness :
  exists t s',
    register_contracts str_scalar (serving three_config three_record second_fails)
      31337 three_deployments (loaded three_config)
    = (t, s', Ok (2, 1))
    /\ List.length (posted t) = 3%nat
    /\ exists t' s'',
        main_register str_scalar (serving three_config three_record second_fails)
          (default_args false) three_deployments (loaded three_config)
        = (t', s'', Raise (SystemExit 1)).
Proof.
  destruct (register_contracts_counts str_scalar
              (serving three_config three_record second_fails)
              (default_args false) three_deployments (loaded three_config)
              (JStr "0xf39F") eq_refl)
    as (t & s' & Hr & Hp & Hl & Hc & H3 & Hm).
  exists t, s'. split; [exact Hr|]. split; [exact (proj2 (H3 eq_refl))|].
  destruct Hm as (t' & s'' & Hm & _); [discriminate|reflexivity|discriminate|].
  exists t', s''. exact Hm.
Defined.

(** The scenario of C4 as a whole run: the configuration service knows three
    contracts, the record deploys them, the registration service answers the
    second request with status 500. *)
Example second_of_three_fails_run :
  let '(t, r) := run str_scalar (serving three_config three_record second_fails)
                   (default_args false) in
  exit_code r = 1
  /\ List.length (posted t) = 3%nat
  /\ existsb (String.eqb "PARTIAL: Registered 2 contracts, 1 failed") (printed t)
     = true.
Proof. vm_compute. repeat split. Qed.

(** ** The run as a whole *)

Lemma getitem_raise (v : json) (key : string) (e : exn) :
  getitem v key = Raise e -> e = KeyError key \/ e = TypeError.
Proof.
  destruct v as [| | | | |f]; cbn; try (intros [= <-]; now right).
  destruct (dict_lookup f key); [discriminate|]. intros [= <-]. now left.
Qed.

Lemma get_default_raise (v : json) (key : string) (default : json) (e : exn) :
  get_default v key default = Raise e -> e = AttributeError.
Proof.
  destruct v as [| | | | |f]; cbn; try (now intros [= <-]).
  destruct (dict_lookup f key); discriminate.
Qed.

Lemma len_raise (v : json) (e : exn) : len v = Raise e -> e = TypeError.
Proof. destruct v; cbn; try discriminate; now intros [= <-]. Qed.

Lemma fetch_config_trace (str_of : json -> string) (w : world) (chain_id : Z)
    (s : state) :
  exists s' r,
    fetch_config str_of w chain_id s
      = ([EGet (api_url (self s) ++ "/api/v1/contracts/config/"
                  ++ str_of (JInt chain_id)) (req_headers (self s))], s', r).
Proof.
  unfold fetch_config. run_m.
  destruct (http_get w _ _) as [r|e].
  - destruct (ok r); cbn [negb]; [|do 2 eexists; reflexivity].
    destruct (body_json r) as [data|]; [|do 2 eexists; reflexivity].
    destruct (get data "success") as [v|]; [|do 2 eexists; reflexivity].
    destruct (truthy v); cbn [negb].
    + destruct (getitem data "data"); do 2 eexists; reflexivity.
    + destruct (get data "error"); do 2 eexists; reflexivity.
  - destruct (is_connection_error e); [do 2 eexists; reflexivity|].
    destruct (is_timeout e); do 2 eexists; reflexivity.
Qed.

(** C3: when the fetched configuration names a network other than
    [localhost] and no API key was given on the command line, the run ends
    with exit status 1 (an uncaught error or [sys.exit(1)] at the gate) and
    has touched no file: [load_broadcast_json], whose first effect is to
    probe the file system, was never called; nor was anything posted. *)
Theorem auth_gate_precedes_loading (str_of : json -> string) (w : world)
    (args : Args) (t1 : list event) (s1 : state) (cfg network name : json) :
  fetch_config str_of w (arg_chain_id args) (start args) = (t1, s1, Ok cfg) ->
  getitem cfg "network" = Ok network ->
  getitem network "network_name" = Ok name ->
  eq_str name "localhost" = false ->
  arg_api_key args = None ->
  exit_code (snd (run str_of w args)) = 1
  /\ existsb is_file_event (fst (run str_of w args)) = false
  /\ posted (fst (run str_of w args)) = [].
Proof.
  intros Hf Hnet Hname Hloc Hkey.
  destruct (fetch_config_trace str_of w (arg_chain_id args) (start args))
    as (s' & r' & Ht).
  rewrite Ht in Hf. injection Hf as <- -> ->.
  unfold run, main, main_prepare. run_m. rewrite Ht, Hnet, Hname.
  destruct (getitem network "display_name") as [dn|e] eqn:E1;
    [|destruct (getitem_raise _ _ _ E1) as [-> | ->]; repeat split; reflexivity].
  destruct (get_default network "default_deployer" (JStr "not configured"))
    as [dep|e] eqn:E2;
    [|rewrite (get_default_raise _ _ _ _ E2); repeat split; reflexivity].
  destruct (getitem cfg "mappings") as [ms|e] eqn:E3;
    [|destruct (getitem_raise _ _ _ E3) as [-> | ->]; repeat split; reflexivity].
  destruct (len ms) as [n|e] eqn:E4;
    [|rewrite (len_raise _ _ E4); repeat split; reflexivity].
  rewrite Hloc, Hkey. repeat split; reflexivity.
Qed.

Lemma for_each_emit {A} (line : A -> string) (xs : list A) (s : state) :
  for_each xs (fun x s' => ([EPrint (line x)], s', Ok tt)) s
    = (map (fun x => EPrint (line x)) xs, s, Ok tt).
Proof. apply (for_each_print line xs s). Qed.

Lemma load_broadcast_json_quiet (str_of : json -> string) (w : world)
    (chain_id : Z) (script_name : string) (s : state) :
  exists t r,
    load_broadcast_json str_of w chain_id script_name s = (t, s, r)
    /\ posted t = [].
Proof.
  unfold load_broadcast_json.
  erewrite bind_ok by apply find_broadcast_spec.
  assert (forall ps, posted (map (probe w) ps) = []) as Hq
    by (induction ps; [reflexivity|assumption]).
  destruct (find (candidate_exists w) _) as [p|]; cbn [option_map]; run_m.
  - do 2 eexists. split; [reflexivity|].
    rewrite posted_app, Hq. reflexivity.
  - do 2 eexists. split; [reflexivity|].
    rewrite posted_app, Hq. reflexivity.
Qed.

Lemma extract_loop_quiet (str_of : json -> string) (d : vdict) (txs : list json)
    (acc : list Deployment) (s : state) :
  exists t r, extract_loop str_of d txs acc s = (t, s, r) /\ posted t = [].
Proof.
  revert acc. induction txs as [|tx rest IH]; intros acc.
  - do 2 eexists. split; reflexivity.
  - cbn [extract_loop]. run_m.
    destruct (get tx "transactionType") as [ty|]; [|do 2 eexists; split; reflexivity].
    destruct (eq_str ty "CREATE").
    + destruct (get tx "contractName") as [name|];
        [|do 2 eexists; split; reflexivity].
      destruct (contains d name) as [[|]|]; [| |do 2 eexists; split; reflexivity].
      * destruct (vdict_get str_of d name) as [m|];
          [|do 2 eexists; split; reflexivity].
        destruct (getitem m "db_name"); [|do 2 eexists; split; reflexivity].
        destruct (getitem m "id"); [|do 2 eexists; split; reflexivity].
        destruct (get tx "contractAddress"); [|do 2 eexists; split; reflexivity].
        destruct (get tx "hash"); [|do 2 eexists; split; reflexivity].
        destruct (IH (acc ++ [ {| solidity_name := name; db_name := a;
                                  mapping_id := a0; address := a1;
                                  tx_hash := a2 |} ])%list)
          as (t & r & -> & Hq).
        do 2 eexists. split; [reflexivity|]. exact Hq.
      * destruct (IH acc) as (t & r & -> & Hq).
        do 2 eexists. split; [reflexivity|]. exact Hq.
    + destruct (IH acc) as (t & r & -> & Hq).
      do 2 eexists. split; [reflexivity|]. exact Hq.
Qed.

Lemma extract_deployments_quiet (str_of : json -> string) (broadcast : json)
    (s : state) :
  exists t r, extract_deployments str_of broadcast s = (t, s, r) /\ posted t = [].
Proof.
  unfold extract_deployments. run_m.
  destruct (config (self s)) eqn:Ec; try (do 2 eexists; split; reflexivity).
  all: match goal with
       | |- context [getitem ?c "mappings"] =>
           destruct (getitem c "mappings") as [ms|];
             [|do 2 eexists; split; reflexivity]
       end.
  all: destruct (iterate ms) as [items|]; [|do 2 eexists; split; reflexivity].
  all: destruct (build_solidity_to_mapping items []) as [d|];
    [|do 2 eexists; split; reflexivity].
  all: destruct (get_default broadcast "transactions" (JArr [])) as [tv|];
    [|do 2 eexists; split; reflexivity].
  all: destruct (iterate tv) as [txs|]; [|do 2 eexists; split; reflexivity].
  all: destruct (extract_loop_quiet str_of d txs [] s) as (t & r & -> & Hq).
  all: do 2 eexists; split; [reflexivity|exact Hq].
Qed.

Lemma fetch_config_ok (str_of : json -> string) (w : world) (chain_id : Z)
    (s s' : state) (t : list event) (cfg : json) :
  fetch_config str_of w chain_id s = (t, s', Ok cfg) ->
  config (self s') = cfg
  /\ api_url (self s') = api_url (self s)
  /\ req_headers (self s') = req_headers (self s)
  /\ posts s' = posts s
  /\ posted t = [].
Proof.
  unfold fetch_config. run_m.
  destruct (http_get w _ _) as [r|e].
  - destruct (ok r); cbn [negb]; [|discriminate].
    destruct (body_json r) as [data|]; [|discriminate].
    destruct (get data "success") as [v|]; [|discriminate].
    destruct (truthy v); cbn [negb].
    + destruct (getitem data "data"); [|discriminate].
      cbn. intros [= <- <- <-]. repeat split.
    + destruct (get data "error"); discriminate.
  - destruct (is_connection_error e); [discriminate|].
    destruct (is_timeout e); discriminate.
Qed.

(** What step 4 can rely on when steps 1 to 3 have gone through. *)
Lemma main_prepare_ok (str_of : json -> string) (w : world) (args : Args)
    (report : list event) (s : state) (ds : list Deployment) :
  main_prepare str_of w args (start args) = (report, s, Ok ds) ->
  (exists before, report = (before ++ intended_report str_of ds)%list)
  /\ posted report = []
  /\ (exists dd, configured_deployer (config (self s)) = Ok dd)
  /\ api_url (self s) = api_url (self (start args))
  /\ req_headers (self s) = req_headers (self (start args))
  /\ posts s = 0%nat.
Proof.
  unfold main_prepare. run_m.
  destruct (fetch_config str_of w (arg_chain_id args) (start args))
    as [[t1 s1] [cfg|e]] eqn:Ef; [|destruct e; discriminate].
  destruct (fetch_config_ok _ _ _ _ _ _ _ Ef) as (Hc & Hu & Hh & Hp & Hq1).
  destruct (getitem cfg "network") as [network|] eqn:En; [|discriminate].
  destruct (getitem network "network_name") as [name|]; [|discriminate].
  destruct (getitem network "display_name") as [dn|]; [|discriminate].
  destruct (get_default network "default_deployer" (JStr "not configured"))
    as [dep|] eqn:Eg; [|discriminate].
  destruct (getitem cfg "mappings") as [ms|]; [|discriminate].
  destruct (len ms) as [n|]; [|discriminate].
  destruct (negb (eq_str name "localhost") && _); [discriminate|].
  destruct (load_broadcast_json_quiet str_of w (arg_chain_id args)
              (arg_script args) s1) as (t2 & r2 & -> & Hq2).
  destruct r2 as [broadcast|e]; [|destruct e; discriminate].
  destruct (extract_deployments_quiet str_of broadcast s1) as (t3 & r3 & -> & Hq3).
  destruct r3 as [ds'|e]; [|discriminate].
  rewrite for_each_emit. cbn [app]. intros [= <- <- <-].
  split; [|split; [|split; [|split; [|split]]]]; try assumption.
  - eexists. unfold intended_report, found_line, listing_line.
    repeat rewrite app_comm_cons.
    rewrite !app_nil_r, !app_assoc. reflexivity.
  - cbn [posted]. repeat (rewrite posted_app; cbn [posted]).
    rewrite Hq1, Hq2, Hq3. cbn [app]. rewrite app_nil_r.
    apply (posted_prints (listing_line str_of)).
  - subst cfg. unfold configured_deployer. rewrite En.
    destruct network; try discriminate. cbn in *.
    destruct (dict_lookup fields "default_deployer"); eauto.
Qed.

Lemma main_register_dry (str_of : json -> string) (w : world) (args : Args)
    (deps : list Deployment) (s : state) :
  deps <> [] ->
  arg_dry_run args = true ->
  main_register str_of w args deps s = (dry_run_report str_of deps, s, Ok tt).
Proof.
  intros Hne Hdry. unfold main_register.
  destruct deps as [|dep rest]; [congruence|]. rewrite Hdry.
  set (deps := dep :: rest).
  do 2 (erewrite bind_ok by reflexivity).
  rewrite (for_each_print (would_line str_of)). reflexivity.
Qed.

(** C6: when steps 1 to 3 produce a non-empty list of deployments, the dry
    run and the live run print the same report of the registrations intended
    (the same lines for the same deployments, after the same events); the dry
    run then only lists what it would register and posts nothing, while the
    live run posts one request for each of the deployments reported. *)
Theorem dry_run_reports_without_posting (str_of : json -> string) (w : world)
    (args : Args) (report : list event) (s : state) (ds : list Deployment) :
  main_prepare str_of w args (start args) = (report, s, Ok ds) ->
  ds <> [] ->
  (exists before, report = (before ++ intended_report str_of ds)%list)
  /\ run str_of w (with_dry_run args true)
     = ((report ++ dry_run_report str_of ds)%list, Ok tt)
  /\ posted (fst (run str_of w (with_dry_run args true))) = []
  /\ exists dd registration r,
      run str_of w (with_dry_run args false) = ((report ++ registration)%list, r)
      /\ posted (report ++ registration)
         = map (build_payload (arg_chain_id args) dd) ds.
Proof.
  intros Hprep Hne.
  destruct (main_prepare_ok _ _ _ _ _ _ Hprep)
    as (Hrep & Hq & (dd & Hd) & _ & _ & _).
  assert (run str_of w (with_dry_run args true)
          = ((report ++ dry_run_report str_of ds)%list, Ok tt)) as Hdry.
  { unfold run, main.
    change (start (with_dry_run args true)) with (start args).
    change (main_prepare str_of w (with_dry_run args true))
      with (main_prepare str_of w args).
    erewrite bind_ok by eassumption.
    now rewrite main_register_dry. }
  split; [assumption|]. split; [assumption|]. split.
  - rewrite Hdry. cbn [fst]. rewrite posted_app, Hq. cbn [app dry_run_report posted].
    apply (posted_prints (would_line str_of)).
  - destruct (main_register_live str_of w (with_dry_run args false) ds s dd
                Hd Hne eq_refl) as (t & Hr & Ht).
    exists dd. do 2 eexists. split.
    + unfold run, main.
      change (start (with_dry_run args false)) with (start args).
      change (main_prepare str_of w (with_dry_run args false))
        with (main_prepare str_of w args).
      erewrite bind_ok by eassumption.
      rewrite Hr. reflexivity.
    + rewrite posted_app, Hq. cbn [app posted].
      rewrite posted_app, posted_registration_trace, Ht. apply app_nil_r.
Qed.

(** ** The theorems at work on the examples *)

Lemma config_required_witness :
  extract_deployments str_scalar three_record (start (default_args false))
    = ([], start (default_args false),
       Raise (RuntimeError "Config not loaded. Call fetch_config() first."))
  /\ register_contracts str_scalar (serving three_config three_record always_ok)
       31337 three_deployments (start (default_args false))
     = ([], start (default_args false),
        Raise (RuntimeError "Config not loaded. Call fetch_config() first.")).
Proof.
  exact (config_required str_scalar (serving three_config three_record always_ok)
           (start (default_args false)) three_record 31337 three_deployments
           eq_refl).
Defined.

Lemma fetch_config_failures_witness :
  (exists msg,
      fetch_config str_scalar (answering connection_refused) 31337
        (start (default_args false))
      = ([EGet "http://localhost:8080/api/v1/contracts/config/31337"
            [("Content-Type", "application/json")]],
         start (default_args false), Raise (RuntimeError msg))
      /\ classify_error msg = Some Unreachable)
  /\ (exists msg,
      fetch_config str_scalar (answering read_timeout) 31337
        (start (default_args false))
      = ([EGet "http://localhost:8080/api/v1/contracts/config/31337"
            [("Content-Type", "application/json")]],
         start (default_args false), Raise (RuntimeError msg))
      /\ classify_error msg = Some TimedOut)
  /\ (exists msg,
      fetch_config str_scalar (answering error_response) 31337
        (start (default_args false))
      = ([EGet "http://localhost:8080/api/v1/contracts/config/31337"
            [("Content-Type", "application/json")]],
         start (default_args false), Raise (RuntimeError msg))
      /\ classify_error msg = Some BadStatus)
  /\ (exists msg,
      fetch_config str_scalar (answering application_error) 31337
        (start (default_args false))
      = ([EGet "http://localhost:8080/api/v1/contracts/config/31337"
            [("Content-Type", "application/json")]],
         start (default_args false), Raise (RuntimeError msg))
      /\ classify_error msg = Some ApplicationError).
Proof.
  repeat split.
  - exact (fetch_config_failures str_scalar (answering connection_refused) 31337
             (start (default_args false)) Unreachable eq_refl).
  - exact (fetch_config_failures str_scalar (answering read_timeout) 31337
             (start (default_args false)) TimedOut eq_refl).
  - exact (fetch_config_failures str_scalar (answering error_response) 31337
             (start (default_args false)) BadStatus eq_refl).
  - exact (fetch_config_failures str_scalar (answering application_error) 31337
             (start (default_args false)) ApplicationError eq_refl).
Defined.

Lemma auth_gate_precedes_loading_witness :
  exit_code (snd (run str_scalar (serving sepolia_config three_record always_ok)
                    (default_args false))) = 1
  /\ existsb is_file_event
       (fst (run str_scalar (serving sepolia_config three_record always_ok)
               (default_args false))) = false
  /\ posted (fst (run str_scalar (serving sepolia_config three_record always_ok)
                    (default_args false))) = [].
Proof.
  eapply (auth_gate_precedes_loading str_scalar
            (serving sepolia_config three_record always_ok) (default_args false)).
  - vm_compute. reflexivity.
  - reflexivity.
  - reflexivity.
  - reflexivity.
  - reflexivity.
Defined.

Lemma dry_run_reports_without_posting_witness :
  posted (fst (run str_scalar (serving three_config three_record always_ok)
                 (with_dry_run (default_args false) true))) = []
  /\ exists dd registration r,
      run str_scalar (serving three_config three_record always_ok)
        (with_dry_run (default_args false) false)
      = ((fst (fst (main_prepare str_scalar
                      (serving three_config three_record always_ok)
                      (default_args false) (start (default_args false))))
            ++ registration)%list, r)
      /\ posted (fst (fst (main_prepare str_scalar
                             (serving three_config three_record always_ok)
                             (default_args false) (start (default_args false))))
                   ++ registration)
         = map (build_payload 31337 dd) three_deployments.
Proof.
  assert (main_prepare str_scalar (serving three_config three_record always_ok)
            (default_args false) (start (default_args false))
          = (fst (fst (main_prepare str_scalar
                         (serving three_config three_record always_ok)
                         (default_args false) (start (default_args false)))),
             loaded three_config, Ok three_deployments)) as H
    by (vm_compute; reflexivity).
  assert (three_deployments <> []) as Hne by discriminate.
  exact (proj2 (proj2 (dry_run_reports_without_posting str_scalar
                         (serving three_config three_record always_ok)
                         (default_args false) _ _ _ H Hne))).
Defined.

(** The record loader on the examples: where every candidate exists only the
    first is probed and loaded; where none exists both are probed and named
    in the error. *)
Example load_broadcast_json_first_candidate :
  load_broadcast_json str_scalar (serving three_config three_record always_ok)
    31337 "DeployLocal.s.sol" (loaded three_config)
  = ([EExists "/repo/contracts/script/../broadcast/DeployLocal.s.sol/31337/run-latest.json";
      EPrint "Loading broadcast from: /repo/contracts/script/../broadcast/DeployLocal.s.sol/31337/run-latest.json";
      EOpen "/repo/contracts/script/../broadcast/DeployLocal.s.sol/31337/run-latest.json"],
     loaded three_config, Ok three_record).
Proof. reflexivity. Qed.

Example load_broadcast_json_none_found :
  fst (fst (load_broadcast_json str_scalar (answering connection_refused)
              31337 "DeployLocal.s.sol" (loaded three_config)))
  = [EExists "/repo/contracts/script/../broadcast/DeployLocal.s.sol/31337/run-latest.json";
     EExists "/repo/contracts/script/../broadcast/DeployLocal.s.sol/31337/run-latest.json"].
Proof. reflexivity. Qed.

(** ** Further properties of the configuration fetch *)

Lemma fetch_config_cases (str_of : json -> string) (w : world)
    (chain_id : Z) (s : state) :
  let request := EGet (config_url str_of s chain_id) (req_headers (self s)) in
  match served_config (http_get w (config_url str_of s chain_id)
                         (req_headers (self s))) with
  | Some d =>
      fetch_config str_of w chain_id s = ([request], with_config s d, Ok d)
  | None =>
      exists e, fetch_config str_of w chain_id s = ([request], s, Raise e)
  end.
Proof.
  unfold fetch_config, config_url, served_config. run_m.
  destruct (http_get w _ _) as [r|e].
  - destruct (ok r); cbn [negb]; [|eexists; reflexivity].
    destruct (body_json r) as [data|]; [|eexists; reflexivity].
    destruct data as [| | | | |f]; try (eexists; reflexivity).
    unfold get, get_default, getitem.
    destruct (dict_lookup f "success") as [v|]; cbn [truthy negb].
    + destruct (truthy v); cbn [negb].
      * destruct (dict_lookup f "data"); [reflexivity|eexists; reflexivity].
      * destruct (dict_lookup f "error"); eexists; reflexivity.
    + destruct (dict_lookup f "error"); eexists; reflexivity.
  - destruct (is_connection_error e); [eexists; reflexivity|].
    destruct (is_timeout e); eexists; reflexivity.
Qed.


(** X1: [fetch_config] issues exactly one GET and is all or nothing: when the
    service delivers a configuration, that configuration is returned and
    stored, the rest of the registrar staying as it was; in every other case
    an exception is raised and the registrar is left untouched. *)
Theorem fetch_config_all_or_nothing (str_of : json -> string) (w : world)
    (chain_id : Z) (s : state) :
  let request := EGet (config_url str_of s chain_id) (req_headers (self s)) in
  match served_config (http_get w (config_url str_of s chain_id)
                         (req_headers (self s))) with
  | Some d =>
      fetch_config str_of w chain_id s = ([request], with_config s d, Ok d)
  | None =>
      exists e, fetch_config str_of w chain_id s = ([request], s, Raise e)
  end.
Proof.
  intros request.
  pose proof (fetch_config_cases str_of w chain_id s) as H. cbv zeta in H.
  destruct (served_config _) as [d|]; [exact H|].
  destruct H as [e H]. exists e. exact H.
Qed.

(** X2: a response [{"success": true, "data": null}] makes [fetch_config] return
    [None] without any error, whatever was stored before, and the registrar
    is then as unconfigured as a fresh one: [extract_deployments] and
    [register_contracts] still raise "Config not loaded". *)
Theorem null_data_leaves_registrar_unconfigured (str_of : json -> string)
    (w : world) (chain_id : Z) (s : state) (broadcast : json)
    (deps : list Deployment) :
  served_config (http_get w (config_url str_of s chain_id)
                   (req_headers (self s))) = Some JNull ->
  let s' := with_config s JNull in
  fetch_config str_of w chain_id s
    = ([EGet (config_url str_of s chain_id) (req_headers (self s))], s', Ok JNull)
  /\ extract_deployments str_of broadcast s'
     = ([], s', Raise (RuntimeError "Config not loaded. Call fetch_config() first."))
  /\ register_contracts str_of w chain_id deps s'
     = ([], s', Raise (RuntimeError "Config not loaded. Call fetch_config() first.")).
Proof.
  intros H s'.
  pose proof (fetch_config_cases str_of w chain_id s) as F.
  cbv zeta in F. rewrite H in F.
  split; [exact F|]. split; reflexivity.
Qed.

Lemma null_data_leaves_registrar_unconfigured_witness :
  fetch_config str_scalar (serving JNull three_record always_ok) 31337
    (loaded three_config)
  = ([EGet "http://localhost:8080/api/v1/contracts/config/31337"
        [("Content-Type", "application/json")]],
     loaded JNull, Ok JNull)
  /\ extract_deployments str_scalar three_record (loaded JNull)
     = ([], loaded JNull,
        Raise (RuntimeError "Config not loaded. Call fetch_config() first."))
  /\ register_contracts str_scalar (serving JNull three_record always_ok) 31337
       three_deployments (loaded JNull)
     = ([], loaded JNull,
        Raise (RuntimeError "Config not loaded. Call fetch_config() first.")).
Proof.
  exact (null_data_leaves_registrar_unconfigured str_scalar
           (serving JNull three_record always_ok) 31337 (loaded three_config)
           three_record three_deployments eq_refl).
Defined.

(** X3: when the configuration service is in one of its four failure modes the
    whole run is: the banner, the one GET, one line ["ERROR: ..."] carrying
    the message of the failure, and [sys.exit(1)]; nothing is loaded,
    extracted or posted. *)
Theorem run_aborts_on_fetch_failure (str_of : json -> string) (w : world)
    (args : Args) (mode : failure_mode) :
  let url := config_url str_of (start args) (arg_chain_id args) in
  let h := req_headers (self (start args)) in
  failure_of (http_get w url h) = Some mode ->
  exists msg,
    run str_of w args
      = ((banner str_of args ++ [EGet url h; EPrint ("ERROR: " ++ msg)])%list,
         Raise (SystemExit 1))
    /\ classify_error msg = Some mode.
Proof.
  intros url h H.
  unfold run, main, main_prepare, fetch_config. run_m.
  fold (config_url str_of (start args) (arg_chain_id args)). fold url h.
  destruct (http_get w url h) as [r|e]; cbn [failure_of] in H.
  - destruct (ok r) eqn:Hok; cbn [negb] in H |- *.
    + destruct (body_json r) as [[| | | | |f]|]; try discriminate.
      unfold get, get_default.
      destruct (dict_lookup f "success") as [v|].
      * destruct (truthy v); [discriminate|]. injection H as <-.
        cbn [negb]. destruct (dict_lookup f "error"); eexists; split; reflexivity.
      * injection H as <-.
        cbn [truthy negb].
        destruct (dict_lookup f "error"); eexists; split; reflexivity.
    + injection H as <-. eexists; split; reflexivity.
  - destruct (is_connection_error e).
    + injection H as <-. eexists; split; reflexivity.
    + destruct (is_timeout e); [|discriminate].
      injection H as <-. eexists; split; reflexivity.
Qed.

Lemma run_aborts_on_fetch_failure_witness :
  exists msg,
    run str_scalar (answering read_timeout) (default_args false)
    = ((banner str_scalar (default_args false)
          ++ [EGet "http://localhost:8080/api/v1/contracts/config/31337"
                [("Content-Type", "application/json")];
              EPrint ("ERROR: " ++ msg)])%list,
       Raise (SystemExit 1))
    /\ classify_error msg = Some TimedOut.
Proof.
  exact (run_aborts_on_fetch_failure str_scalar (answering read_timeout)
           (default_args false) TimedOut eq_refl).
Defined.

(** ** Further properties of the run *)

Lemma summary_ok (cfg : json) (name dn dep : json) (n : Z) :
  summary cfg = Ok (name, dn, dep, n) ->
  exists network ms,
    getitem cfg "network" = Ok network
    /\ getitem network "network_name" = Ok name
    /\ getitem network "display_name" = Ok dn
    /\ get_default network "default_deployer" (JStr "not configured") = Ok dep
    /\ getitem cfg "mappings" = Ok ms
    /\ len ms = Ok n.
Proof.
  unfold summary.
  destruct (getitem cfg "network") as [network|]; [|discriminate].
  destruct (getitem network "network_name") as [nn|] eqn:E1; [|discriminate].
  destruct (getitem network "display_name") as [d|] eqn:E2; [|discriminate].
  destruct (get_default network "default_deployer" (JStr "not configured"))
    as [dd|] eqn:E3; [|discriminate].
  destruct (getitem cfg "mappings") as [ms|]; [|discriminate].
  destruct (len ms) as [k|] eqn:E4; [|discriminate].
  intros [= <- <- <- <-]. exists network, ms. repeat split; assumption.
Qed.

Lemma gate_open_test (name : json) (args : Args) :
  gate_open name args = true ->
  negb (eq_str name "localhost")
    && negb (match arg_api_key args with
             | Some k => negb (String.eqb k "")
             | None => false
             end) = false.
Proof.
  unfold gate_open, key_given.
  destruct (eq_str name "localhost"); [reflexivity|]. cbn [orb negb andb].
  now intros ->.
Qed.

(** X4: with the configuration fetched and the gate of step 2 passed (the
    network is [localhost], or a key was given), a run that finds no
    deployment record probes every candidate location, prints the
    ["ERROR: Broadcast file not found..."] message and exits with status 1;
    it opens no file and posts nothing. *)
Theorem run_without_record (str_of : json -> string) (w : world) (args : Args)
    (t1 : list event) (s1 : state) (cfg name dn dep : json) (n : Z) :
  fetch_config str_of w (arg_chain_id args) (start args) = (t1, s1, Ok cfg) ->
  summary cfg = Ok (name, dn, dep, n) ->
  gate_open name args = true ->
  find (candidate_exists w)
    (possible_paths str_of (arg_chain_id args) (arg_script args)) = None ->
  exists msg,
    run str_of w args
      = ((banner str_of args ++ t1 ++ summary_lines str_of (name, dn, dep, n)
            ++ EPrint (nl ++ "[2/4] Loading broadcast from " ++ arg_script args ++ "...")
            :: map (probe w)
                 (possible_paths str_of (arg_chain_id args) (arg_script args))
            ++ [EPrint ("ERROR: " ++ msg)])%list,
         Raise (SystemExit 1))
    /\ starts_with "Broadcast file not found. Searched:" msg = true
    /\ posted (fst (run str_of w args)) = []
    /\ exit_code (snd (run str_of w args)) = 1.
Proof.
  intros Hf Hs Hg Hnone.
  destruct (summary_ok _ _ _ _ _ Hs) as (network & ms & Hn & Hnn & Hdn & Hd & Hm & Hl).
  destruct (fetch_config_ok _ _ _ _ _ _ _ Hf) as (_ & _ & _ & _ & Hq).
  assert (exists msg,
    run str_of w args
      = ((banner str_of args ++ t1 ++ summary_lines str_of (name, dn, dep, n)
            ++ EPrint (nl ++ "[2/4] Loading broadcast from " ++ arg_script args ++ "...")
            :: map (probe w)
                 (possible_paths str_of (arg_chain_id args) (arg_script args))
            ++ [EPrint ("ERROR: " ++ msg)])%list,
         Raise (SystemExit 1))
    /\ starts_with "Broadcast file not found. Searched:" msg = true)
    as (msg & Hrun & Hmsg).
  { unfold run, main, main_prepare, load_broadcast_json. run_m.
    rewrite Hf, Hn, Hnn, Hdn, Hd, Hm, Hl, (gate_open_test _ _ Hg).
    rewrite find_broadcast_spec, Hnone, (probed_none _ _ Hnone).
    cbn [option_map]. eexists. split.
    - unfold banner, summary_lines. cbn [app]. rewrite !app_nil_r. reflexivity.
    - reflexivity. }
  exists msg. split; [exact Hrun|]. split; [exact Hmsg|].
  rewrite Hrun. cbn [fst snd exit_code]. split; [|reflexivity].
  unfold banner, summary_lines. cbn [app posted].
  rewrite posted_app, Hq. cbn [app posted]. rewrite posted_app.
  assert (forall ps, posted (map (probe w) ps) = []) as Hp
    by (induction ps; [reflexivity|assumption]).
  now rewrite Hp.
Qed.

Lemma run_without_record_witness :
  exists msg,
    run str_scalar (without_record local_config) (default_args false)
    = ((banner str_scalar (default_args false)
          ++ [EGet "http://localhost:8080/api/v1/contracts/config/31337"
                [("Content-Type", "application/json")]]
          ++ summary_lines str_scalar
               (JStr "localhost", JStr "Anvil", JStr "0xf39F", 1)
          ++ EPrint (nl ++ "[2/4] Loading broadcast from DeployLocal.s.sol...")
          :: map (probe (without_record local_config))
               (possible_paths str_scalar 31337 "DeployLocal.s.sol")
          ++ [EPrint ("ERROR: " ++ msg)])%list,
       Raise (SystemExit 1))
    /\ starts_with "Broadcast file not found. Searched:" msg = true
    /\ posted (fst (run str_scalar (without_record local_config)
                      (default_args false))) = []
    /\ exit_code (snd (run str_scalar (without_record local_config)
                         (default_args false))) = 1.
Proof.
  eapply (run_without_record str_scalar (without_record local_config)
            (default_args false)).
  - vm_compute. reflexivity.
  - reflexivity.
  - reflexivity.
  - reflexivity.
Defined.

(** X5: when steps 1 to 3 find nothing to register, the run prints
    ["[4/4] No contracts to register."] and returns with exit status 0
    without posting anything, with or without the dry-run switch. *)
Theorem run_without_deployments (str_of : json -> string) (w : world)
    (args : Args) (report : list event) (s : state) :
  main_prepare str_of w args (start args) = (report, s, Ok []) ->
  run str_of w args
    = ((report ++ [EPrint (nl ++ "[4/4] No contracts to register.")])%list, Ok tt)
  /\ exit_code (snd (run str_of w args)) = 0
  /\ posted (fst (run str_of w args)) = [].
Proof.
  intros H.
  destruct (main_prepare_ok _ _ _ _ _ _ H) as (_ & Hq & _).
  assert (run str_of w args
          = ((report ++ [EPrint (nl ++ "[4/4] No contracts to register.")])%list,
             Ok tt)) as Hrun.
  { unfold run, main. erewrite bind_ok by eassumption. reflexivity. }
  rewrite Hrun. cbn [fst snd exit_code]. repeat split.
  rewrite posted_app, Hq. reflexivity.
Qed.

Lemma run_without_deployments_witness :
  exit_code (snd (run str_scalar
                    (serving local_config (record_of [call_tx; unrecognized_tx])
                       always_ok)
                    (default_args false))) = 0
  /\ posted (fst (run str_scalar
                    (serving local_config (record_of [call_tx; unrecognized_tx])
                       always_ok)
                    (default_args false))) = [].
Proof.
  assert (main_prepare str_scalar
            (serving local_config (record_of [call_tx; unrecognized_tx]) always_ok)
            (default_args false) (start (default_args false))
          = (fst (fst (main_prepare str_scalar
                         (serving local_config
                            (record_of [call_tx; unrecognized_tx]) always_ok)
                         (default_args false) (start (default_args false)))),
             loaded local_config, Ok [])) as H
    by (vm_compute; reflexivity).
  exact (proj2 (run_without_deployments str_scalar
                  (serving local_config (record_of [call_tx; unrecognized_tx])
                     always_ok)
                  (default_args false) _ _ H)).
Defined.

(** X6: a live run that has deployments to register exits with status 0 exactly
    when no submission failed, and with status 1 otherwise; the submissions
    are the payloads of the deployments, posted in order from the first
    request of the run on. *)
Theorem live_run_exit_status (str_of : json -> string) (w : world)
    (args : Args) (report : list event) (s : state) (ds : list Deployment) :
  main_prepare str_of w args (start args) = (report, s, Ok ds) ->
  ds <> [] ->
  arg_dry_run args = false ->
  exists dd,
    configured_deployer (config (self s)) = Ok dd
    /\ let outcomes :=
         submissions w 0 (api_url (self (start args)) ++ "/api/v1/contracts")
           (req_headers (self (start args)))
           (map (build_payload (arg_chain_id args) dd) ds) in
       exit_code (snd (run str_of w args))
         = (if forallb succeeded outcomes then 0 else 1)
       /\ posted (fst (run str_of w args))
          = map (build_payload (arg_chain_id args) dd) ds.
Proof.
  intros H Hne Hlive.
  destruct (main_prepare_ok _ _ _ _ _ _ H) as (_ & Hq & (dd & Hd) & Hu & Hh & Hp).
  exists dd. split; [exact Hd|]. cbv zeta.
  destruct (main_register_live str_of w args ds s dd Hd Hne Hlive) as (t & Hr & Ht).
  rewrite Hu, Hh, Hp in Hr.
  assert (forall os, (count failed os =? 0) = forallb succeeded os) as Hc.
  { induction os as [|o os IH]; [reflexivity|].
    rewrite count_cons. cbn [forallb]. unfold failed at 1.
    destruct (succeeded o); cbn [negb andb].
    - rewrite Z.add_0_l. exact IH.
    - apply Z.eqb_neq. unfold count. lia. }
  unfold run, main. erewrite bind_ok by eassumption. rewrite Hr, Hc.
  cbn [fst snd]. split.
  - destruct (forallb succeeded _); reflexivity.
  - rewrite posted_app, Hq. cbn [app posted].
    rewrite posted_app, posted_registration_trace, Ht. apply app_nil_r.
Qed.

Lemma live_run_exit_status_witness :
  exit_code (snd (run str_scalar (serving three_config three_record always_ok)
                    (default_args false))) = 0
  /\ exit_code (snd (run str_scalar (serving three_config three_record second_fails)
                       (default_args false))) = 1.
Proof.
  assert (three_deployments <> []) as Hne by discriminate.
  split.
  - assert (main_prepare str_scalar (serving three_config three_record always_ok)
              (default_args false) (start (default_args false))
            = (fst (fst (main_prepare str_scalar
                           (serving three_config three_record always_ok)
                           (default_args false) (start (default_args false)))),
               loaded three_config, Ok three_deployments)) as H
      by (vm_compute; reflexivity).
    destruct (live_run_exit_status str_scalar
                (serving three_config three_record always_ok)
                (default_args false) _ _ _ H Hne eq_refl) as (dd & Hd & He & _).
    injection Hd as <-. exact He.
  - assert (main_prepare str_scalar (serving three_config three_record second_fails)
              (default_args false) (start (default_args false))
            = (fst (fst (main_prepare str_scalar
                           (serving three_config three_record second_fails)
                           (default_args false) (start (default_args false)))),
               loaded three_config, Ok three_deployments)) as H
      by (vm_compute; reflexivity).
    destruct (live_run_exit_status str_scalar
                (serving three_config three_record second_fails)
                (default_args false) _ _ _ H Hne eq_refl) as (dd & Hd & He & _).
    injection Hd as <-. exact He.
Defined.

(** ** Further properties of the cross-referencing *)

Lemma create_accounted (str_of : json -> string) (mappings : list json) (tx : json) :
  (List.length (deployment_for mappings tx)
   + List.length (report_for str_of mappings tx))%nat
  = if is_create tx then 1%nat else 0%nat.
Proof.
  unfold deployment_for, report_for.
  destruct (is_create tx); [|reflexivity].
  now destruct (mapping_for mappings (field tx "contractName")).
Qed.

(** X7: every CREATE transaction of the record is accounted for: the number of
    deployments returned plus the number of skip messages printed is the
    number of CREATE transactions, and nothing but those messages is
    emitted. *)
Theorem creates_accounted_for (str_of : json -> string) (broadcast : json)
    (s : state) (mappings txs : list json) :
  mappings_of (config (self s)) = Ok mappings ->
  forallb well_formed_mapping mappings = true ->
  transactions_of broadcast = Ok txs ->
  forallb well_formed_tx txs = true ->
  exists t ds,
    extract_deployments str_of broadcast s = (t, s, Ok ds)
    /\ forallb is_print t = true
    /\ (List.length ds + List.length t)%nat = List.length (filter is_create txs)
    /\ List.length ds = List.length (filter (mapped_create mappings) txs).
Proof.
  intros Hm Hwm Ht Hwt.
  do 2 eexists.
  split; [apply (extract_deployments_spec str_of broadcast s mappings txs);
          assumption|].
  clear Ht Hwt. split; [|split].
  - induction txs as [|tx rest IH]; [reflexivity|].
    cbn [flat_map]. rewrite forallb_app, IH, andb_true_r.
    unfold report_for. destruct (is_create tx); [|reflexivity].
    now destruct (mapping_for mappings (field tx "contractName")).
  - induction txs as [|tx rest IH]; [reflexivity|].
    cbn [flat_map filter]. rewrite !length_app.
    pose proof (create_accounted str_of mappings tx) as Hc.
    destruct (is_create tx); cbn [List.length]; lia.
  - induction txs as [|tx rest IH]; [reflexivity|].
    cbn [flat_map filter]. rewrite length_app, IH.
    unfold mapped_create, deployment_for.
    destruct (is_create tx); cbn [andb]; [|reflexivity].
    destruct (mapping_for mappings (field tx "contractName")) as [m|] eqn:E.
    + destruct (mapping_for_in _ _ _ E) as [Hin Hn].
      assert (existsb (names (field tx "contractName")) mappings = true) as ->
        by (apply existsb_exists; eauto).
      reflexivity.
    + apply mapping_for_none in E. now rewrite E.
Qed.

Lemma creates_accounted_for_witness :
  exists t ds,
    extract_deployments str_scalar
      (record_of [staking_tx; call_tx; unrecognized_tx]) (loaded local_config)
    = (t, loaded local_config, Ok ds)
    /\ forallb is_print t = true
    /\ (List.length ds + List.length t)%nat = 2%nat
    /\ List.length ds = 1%nat.
Proof.
  exact (creates_accounted_for str_scalar
           (record_of [staking_tx; call_tx; unrecognized_tx])
           (loaded local_config) [staking_mapping]
           [staking_tx; call_tx; unrecognized_tx]
           eq_refl eq_refl eq_refl eq_refl).
Defined.

(** X8: a record without a [transactions] entry is read as a record with no
    transactions: on a well-formed configuration [extract_deployments]
    returns the empty list, prints nothing and raises nothing. *)
Theorem record_without_transactions (str_of : json -> string)
    (fields : list (string * json)) (s : state) (mappings : list json) :
  mappings_of (config (self s)) = Ok mappings ->
  forallb well_formed_mapping mappings = true ->
  dict_lookup fields "transactions" = None ->
  extract_deployments str_of (JObj fields) s = ([], s, Ok []).
Proof.
  intros Hm Hwm Hl.
  apply (extract_deployments_spec str_of (JObj fields) s mappings []);
    try assumption; try reflexivity.
  unfold transactions_of, get_default. now rewrite Hl.
Qed.

Lemma record_without_transactions_witness :
  extract_deployments str_scalar (JObj [("chain", JInt 31337)]) (loaded three_config)
    = ([], loaded three_config, Ok []).
Proof.
  exact (record_without_transactions str_scalar [("chain", JInt 31337)]
           (loaded three_config)
           [staking_mapping; token_mapping; governor_mapping]
           eq_refl eq_refl eq_refl).
Defined.

(** X9: when several mappings carry the same [solidity_name], the one listed
    last decides: a CREATE transaction with that name is returned with the
    [db_name] and [id] of the last such mapping. *)
Theorem last_mapping_wins (str_of : json -> string) (broadcast : json)
    (s : state) (before after txs : list json) (m tx : json) :
  mappings_of (config (self s)) = Ok (before ++ m :: after)%list ->
  forallb well_formed_mapping (before ++ m :: after) = true ->
  transactions_of broadcast = Ok txs ->
  forallb well_formed_tx txs = true ->
  In tx txs ->
  is_create tx = true ->
  names (field tx "contractName") m = true ->
  existsb (names (field tx "contractName")) after = false ->
  exists t ds,
    extract_deployments str_of broadcast s = (t, s, Ok ds)
    /\ In (deployment_of tx m) ds
    /\ forall m', In (deployment_of tx m') ds ->
                  deployment_of tx m' = deployment_of tx m.
Proof.
  intros Hm Hwm Ht Hwt Hin Hc Hn Ha.
  assert (mapping_for (before ++ m :: after) (field tx "contractName") = Some m)
    as Hfor.
  { unfold mapping_for. rewrite rev_app_distr. cbn [rev].
    rewrite <- app_assoc. cbn [app].
    assert (find (names (field tx "contractName")) (rev after) = None) as Hnone.
    { apply mapping_for_none in Ha. exact Ha. }
    clear - Hnone Hn. induction (rev after) as [|x xs IH]; cbn [app find].
    - now rewrite Hn.
    - cbn [find] in Hnone. destruct (names (field tx "contractName") x);
        [discriminate|]. now apply IH. }
  do 2 eexists.
  split; [apply (extract_deployments_spec str_of broadcast s
                   (before ++ m :: after) txs); assumption|].
  split.
  - apply in_flat_map. exists tx. split; [assumption|].
    unfold deployment_for. rewrite Hc, Hfor. now left.
  - intros m' Hin'. apply in_flat_map in Hin'. destruct Hin' as (tx' & _ & Hd).
    unfold deployment_for in Hd. destruct (is_create tx'); [|destruct Hd].
    destruct (mapping_for (before ++ m :: after) (field tx' "contractName"))
      as [m''|] eqn:E; [|destruct Hd].
    destruct Hd as [Hd|[]].
    assert (field tx' "contractName" = field tx "contractName") as Hname
      by (unfold deployment_of in Hd; congruence).
    rewrite Hname, Hfor in E. injection E as <-.
    rewrite <- Hd. unfold deployment_of in *. congruence.
Qed.

Lemma last_mapping_wins_witness :
  exists t ds,
    extract_deployments str_scalar (record_of [staking_tx])
      (loaded (config_with (network_config "localhost" [])
                 [staking_mapping; token_mapping; staking_v2_mapping]))
    = (t, loaded (config_with (network_config "localhost" [])
                    [staking_mapping; token_mapping; staking_v2_mapping]),
       Ok ds)
    /\ In (deployment_of staking_tx staking_v2_mapping) ds
    /\ forall m', In (deployment_of staking_tx m') ds ->
                  deployment_of staking_tx m'
                  = deployment_of staking_tx staking_v2_mapping.
Proof.
  exact (last_mapping_wins str_scalar (record_of [staking_tx])
           (loaded (config_with (network_config "localhost" [])
                      [staking_mapping; token_mapping; staking_v2_mapping]))
           [staking_mapping; token_mapping] [] [staking_tx]
           staking_v2_mapping staking_tx
           eq_refl eq_refl eq_refl eq_refl (or_introl eq_refl)
           eq_refl eq_refl eq_refl).
Defined.

Lemma extract_loop_prints (str_of : json -> string) (d : vdict) (txs : list json)
    (acc : list Deployment) (s : state) :
  exists t r,
    extract_loop str_of d txs acc s = (t, s, r) /\ forallb is_print t = true.
Proof.
  revert acc. induction txs as [|tx rest IH]; intros acc.
  - do 2 eexists. split; reflexivity.
  - cbn [extract_loop]. run_m.
    destruct (get tx "transactionType") as [ty|]; [|do 2 eexists; split; reflexivity].
    destruct (eq_str ty "CREATE").
    + destruct (get tx "contractName") as [name|];
        [|do 2 eexists; split; reflexivity].
      destruct (contains d name) as [[|]|]; [| |do 2 eexists; split; reflexivity].
      * destruct (vdict_get str_of d name) as [m|];
          [|do 2 eexists; split; reflexivity].
        destruct (getitem m "db_name") as [db|]; [|do 2 eexists; split; reflexivity].
        destruct (getitem m "id") as [id|]; [|do 2 eexists; split; reflexivity].
        destruct (get tx "contractAddress") as [addr|];
          [|do 2 eexists; split; reflexivity].
        destruct (get tx "hash") as [h|]; [|do 2 eexists; split; reflexivity].
        destruct (IH (acc ++ [ {| solidity_name := name; db_name := db;
                                  mapping_id := id; address := addr;
                                  tx_hash := h |} ])%list)
          as (t & r & -> & Hq).
        do 2 eexists. split; [reflexivity|]. exact Hq.
      * destruct (IH acc) as (t & r & -> & Hq).
        do 2 eexists. split; [reflexivity|]. exact Hq.
    + destruct (IH acc) as (t & r & -> & Hq).
      do 2 eexists. split; [reflexivity|]. exact Hq.
Qed.

(** X10: whatever the record and the stored configuration, well formed or not,
    [extract_deployments] does nothing but print: no request, no file
    access, and the registrar is as it was, also when an exception is
    raised. *)
Theorem extract_deployments_only_prints (str_of : json -> string)
    (broadcast : json) (s : state) :
  exists t r,
    extract_deployments str_of broadcast s = (t, s, r)
    /\ forallb is_print t = true.
Proof.
  unfold extract_deployments. run_m.
  destruct (config (self s)) eqn:Ec; try (do 2 eexists; split; reflexivity).
  all: match goal with
       | |- context [getitem ?c "mappings"] =>
           destruct (getitem c "mappings") as [ms|];
             [|do 2 eexists; split; reflexivity]
       end.
  all: destruct (iterate ms) as [items|]; [|do 2 eexists; split; reflexivity].
  all: destruct (build_solidity_to_mapping items []) as [d|];
    [|do 2 eexists; split; reflexivity].
  all: destruct (get_default broadcast "transactions" (JArr [])) as [tv|];
    [|do 2 eexists; split; reflexivity].
  all: destruct (iterate tv) as [txs|]; [|do 2 eexists; split; reflexivity].
  all: destruct (extract_loop_prints str_of d txs [] s) as (t & r & -> & Hq).
  all: do 2 eexists; split; [reflexivity|exact Hq].
Qed.

Lemma build_payload_fields (chain_id : Z) (dd : json) (dep : Deployment) :
  dict_lookup (build_payload chain_id dd dep) "chain_id" = Some (JInt chain_id)
  /\ dict_lookup (build_payload chain_id dd dep) "contract_mapping_id"
     = Some (mapping_id dep)
  /\ dict_lookup (build_payload chain_id dd dep) "address" = Some (address dep)
  /\ dict_lookup (build_payload chain_id dd dep) "deployment_tx_hash"
     = Some (tx_hash dep).
Proof. unfold build_payload. destruct (truthy dd); repeat split. Qed.

(** X11: extraction followed by registration: on a well-formed configuration and
    record, the requests posted are, in the order of the record, one for each
    CREATE transaction with a known name, and each carries the chain id, the
    [id] of a mapping with that name, and the address and hash of its
    transaction. *)
Theorem registered_payloads_follow_record (str_of : json -> string) (w : world)
    (chain_id : Z) (broadcast : json) (s : state) (mappings txs : list json)
    (dd : json) :
  mappings_of (config (self s)) = Ok mappings ->
  forallb well_formed_mapping mappings = true ->
  transactions_of broadcast = Ok txs ->
  forallb well_formed_tx txs = true ->
  configured_deployer (config (self s)) = Ok dd ->
  exists t1 ds t2 s2 r,
    extract_deployments str_of broadcast s = (t1, s, Ok ds)
    /\ register_contracts str_of w chain_id ds s = (t2, s2, Ok r)
    /\ List.length (posted t2) = List.length (filter (mapped_create mappings) txs)
    /\ posted t2
       = flat_map (fun tx => map (build_payload chain_id dd)
                               (deployment_for mappings tx)) txs
    /\ Forall (fun body =>
                 exists tx m,
                   In tx txs /\ In m mappings
                   /\ mapped_create mappings tx = true
                   /\ names (field tx "contractName") m = true
                   /\ dict_lookup body "chain_id" = Some (JInt chain_id)
                   /\ dict_lookup body "contract_mapping_id" = Some (item m "id")
                   /\ dict_lookup body "address"
                      = Some (field tx "contractAddress")
                   /\ dict_lookup body "deployment_tx_hash"
                      = Some (field tx "hash"))
         (posted t2).
Proof.
  intros Hm Hwm Ht Hwt Hd.
  do 5 eexists.
  split; [apply (extract_deployments_spec str_of broadcast s mappings txs);
          assumption|].
  split; [apply register_contracts_spec; eassumption|].
  rewrite posted_registration_trace.
  assert (forall tx,
             List.length (deployment_for mappings tx)
             = if mapped_create mappings tx then 1%nat else 0%nat) as Hone.
  { intros tx. unfold mapped_create, deployment_for.
    destruct (is_create tx); cbn [andb]; [|reflexivity].
    destruct (mapping_for mappings (field tx "contractName")) as [m|] eqn:E.
    - destruct (mapping_for_in _ _ _ E) as [Hin Hn].
      assert (existsb (names (field tx "contractName")) mappings = true) as ->
        by (apply existsb_exists; eauto).
      reflexivity.
    - apply mapping_for_none in E. now rewrite E. }
  split; [|split].
  - rewrite length_map. clear Ht Hwt.
    induction txs as [|tx rest IH]; [reflexivity|].
    cbn [flat_map filter]. rewrite length_app, IH, Hone.
    destruct (mapped_create mappings tx); reflexivity.
  - clear. induction txs as [|tx rest IH]; [reflexivity|].
    cbn [flat_map]. now rewrite map_app, IH.
  - apply Forall_forall. intros body Hin.
    apply in_map_iff in Hin. destruct Hin as (dep & <- & Hin).
    apply in_flat_map in Hin. destruct Hin as (tx & Htx & Hdep).
    pose proof (Hone tx) as H1.
    unfold deployment_for in Hdep.
    destruct (is_create tx) eqn:Hc; [|destruct Hdep].
    destruct (mapping_for mappings (field tx "contractName")) as [m|] eqn:E;
      [|destruct Hdep].
    destruct Hdep as [<-|[]].
    destruct (mapping_for_in _ _ _ E) as [Hinm Hn].
    exists tx, m. split; [assumption|]. split; [assumption|].
    split.
    { unfold mapped_create. rewrite Hc. cbn [andb].
      apply existsb_exists; eauto. }
    split; [assumption|].
    apply (build_payload_fields chain_id dd (deployment_of tx m)).
Qed.

Lemma registered_payloads_follow_record_witness :
  exists t1 ds t2 s2 r,
    extract_deployments str_scalar
      (record_of [staking_tx; call_tx; unrecognized_tx]) (loaded local_config)
    = (t1, loaded local_config, Ok ds)
    /\ register_contracts str_scalar
         (serving local_config JNull always_ok) 31337 ds (loaded local_config)
       = (t2, s2, Ok r)
    /\ List.length (posted t2) = 1%nat.
Proof.
  destruct (registered_payloads_follow_record str_scalar
              (serving local_config JNull always_ok) 31337
              (record_of [staking_tx; call_tx; unrecognized_tx])
              (loaded local_config) [staking_mapping]
              [staking_tx; call_tx; unrecognized_tx] (JStr "0xf39F")
              eq_refl eq_refl eq_refl eq_refl eq_refl)
    as (t1 & ds & t2 & s2 & r & He & Hr & Hl & _).
  exists t1, ds, t2, s2, r. split; [exact He|]. split; [exact Hr|]. exact Hl.
Defined.

(** ** The registrar object and the command line *)

Lemma rstrip_slash_no_trailing (s : string) :
  ends_with_slash (rstrip_slash s) = false.
Proof.
  induction s as [|c s IH]; [reflexivity|].
  cbn [rstrip_slash]. destruct (rstrip_slash s) as [|a r].
  - destruct (Ascii.eqb c "/") eqn:E; [reflexivity|]. cbn. exact E.
  - exact IH.
Qed.

Lemma rstrip_slash_suffix (s : string) :
  exists n, s = rstrip_slash s ++ repeat_str "/" n.
Proof.
  induction s as [|c s (n & IH)]; [exists 0%nat; reflexivity|].
  cbn [rstrip_slash]. destruct (rstrip_slash s) as [|a r].
  - destruct (Ascii.eqb c "/") eqn:E.
    + apply Ascii.eqb_eq in E. subst c. exists (S n).
      cbn [append] in IH. rewrite IH at 1. reflexivity.
    + exists n. cbn [append] in IH |- *. now rewrite IH at 1.
  - exists n. cbn [append] in IH |- *. now rewrite IH at 1.
Qed.

(** X12: a new registrar has no configuration; its base URL is the given one
    without its trailing slashes, and nothing else removed; it always sends
    the JSON content type, and sends [X-API-Key] exactly when a non-empty
    key was given. *)
Theorem init_registrar (url : string) (api_key : option string) :
  config (init url api_key) = JNull
  /\ ends_with_slash (api_url (init url api_key)) = false
  /\ (exists n, url = api_url (init url api_key) ++ repeat_str "/" n)
  /\ dict_lookup (req_headers (init url api_key)) "Content-Type"
     = Some "application/json"
  /\ dict_lookup (req_headers (init url api_key)) "X-API-Key"
     = match api_key with
       | Some k => if String.eqb k "" then None else Some k
       | None => None
       end.
Proof.
  split; [reflexivity|].
  split; [apply rstrip_slash_no_trailing|].
  split; [apply rstrip_slash_suffix|].
  destruct api_key as [k|]; cbn; [|split; reflexivity].
  destruct (String.eqb k ""); split; reflexivity.
Qed.

(** X13: an empty [--api-key] is no key at all: the run is, event for event and
    in its outcome, the run without the option; in particular no
    [X-API-Key] header is sent and a network other than [localhost] is
    refused. *)
Theorem empty_api_key_is_no_key (str_of : json -> string) (w : world)
    (args : Args) :
  arg_api_key args = Some "" ->
  run str_of w args = run str_of w (without_api_key args)
  /\ key_given args = false
  /\ dict_lookup (req_headers (self (start args))) "X-API-Key" = None.
Proof.
  destruct args as [chain url key script dry]. cbn [arg_api_key].
  intros ->. repeat split.
Qed.

Lemma empty_api_key_is_no_key_witness :
  run str_scalar (serving sepolia_config three_record always_ok) (sepolia_args "")
  = run str_scalar (serving sepolia_config three_record always_ok)
      (without_api_key (sepolia_args ""))
  /\ key_given (sepolia_args "") = false
  /\ dict_lookup (req_headers (self (start (sepolia_args "")))) "X-API-Key" = None.
Proof.
  exact (empty_api_key_is_no_key str_scalar
           (serving sepolia_config three_record always_ok) (sepolia_args "")
           eq_refl).
Defined.

(** X14: a stored configuration that lacks what a method needs makes it fail
    before it does anything: without an iterable [mappings] entry
    [extract_deployments] raises before reading the record, and without a
    [network] dict [register_contracts] raises before posting; the error is
    the [KeyError], [TypeError] or [AttributeError] of the failed lookup, not
    the "Config not loaded" [RuntimeError]. *)
Theorem malformed_config_fails_first (str_of : json -> string) (w : world)
    (chain_id : Z) (broadcast : json) (deps : list Deployment) (s : state) :
  config (self s) <> JNull ->
  (forall e, mappings_of (config (self s)) = Raise e ->
             extract_deployments str_of broadcast s = ([], s, Raise e)
             /\ (e = KeyError "mappings" \/ e = TypeError))
  /\ (forall e, configured_deployer (config (self s)) = Raise e ->
                register_contracts str_of w chain_id deps s = ([], s, Raise e)
                /\ (e = KeyError "network" \/ e = TypeError
                    \/ e = AttributeError)).
Proof.
  intros Hc. split; intros e H.
  - unfold extract_deployments, mappings_of in *. run_m.
    destruct (config (self s)) as [| | | | |cf] eqn:Ec; try congruence;
      try (cbn in H; injection H as <-; split; [reflexivity|now right]).
    destruct (getitem (JObj cf) "mappings") as [ms|e'] eqn:Eg.
    + rewrite H. split; [reflexivity|].
      destruct ms; cbn in H; try discriminate; injection H as <-; now right.
    + injection H as <-. split; [reflexivity|].
      destruct (getitem_raise _ _ _ Eg) as [-> | ->]; [now left|now right].
  - unfold register_contracts, configured_deployer in *. run_m.
    destruct (config (self s)) as [| | | | |cf] eqn:Ec; try congruence;
      try (cbn in H; injection H as <-; split; [reflexivity|right; now left]).
    destruct (getitem (JObj cf) "network") as [network|e'] eqn:Eg.
    + rewrite H. split; [reflexivity|].
      right; right. exact (get_default_raise _ _ _ _ H).
    + injection H as <-. split; [reflexivity|].
      destruct (getitem_raise _ _ _ Eg) as [-> | ->];
        [now left|right; now left].
Qed.

Lemma malformed_config_fails_first_witness :
  extract_deployments str_scalar three_record
    (loaded (JObj [("network", JStr "localhost")]))
  = ([], loaded (JObj [("network", JStr "localhost")]),
     Raise (KeyError "mappings"))
  /\ register_contracts str_scalar (serving JNull JNull always_ok) 31337
       three_deployments (loaded (JObj [("network", JStr "localhost")]))
     = ([], loaded (JObj [("network", JStr "localhost")]), Raise AttributeError).
Proof.
  assert (config (self (loaded (JObj [("network", JStr "localhost")]))) <> JNull)
    as Hc by discriminate.
  destruct (malformed_config_fails_first str_scalar
              (serving JNull JNull always_ok) 31337 three_record
              three_deployments
              (loaded (JObj [("network", JStr "localhost")])) Hc) as [He Hr].
  split.
  - exact (proj1 (He (KeyError "mappings") eq_refl)).
  - exact (proj1 (Hr AttributeError eq_refl)).
Defined.
